(** * capybaradb-py: media objects, document transformer, response classifier

    A shallow embedding of
      - [src/capybaradb/_emb_json/_emb_image.py]  (class [EmbImage])
      - [src/capybaradb/_collection.py]           (class [Collection]:
        [transform_emb_text] and [handle_response])
    together with the properties of the specification that concern them.

    Conventions of the embedding.
      - Python values are the inductive [pyval]; a [dict] is an association
        list in insertion order (Python dicts keep insertion order and the
        wire format is field-order-stable), with unique keys maintained by
        [dict_set].
      - A Python [str] is a [string]; its characters are read as code points
        below 256.  A Python [int] is a [Z].  JSON numbers with a fraction or
        an exponent (Python [float]) are not part of [pyval].
      - Code that can raise returns a [result]: [Return v] or [Raise e].
      - What lives outside the two source files (the model-name constants of
        [_emb_models.py] and [_vision_models.py], [EmbText.to_json] of
        [_emb_text.py], [base64.b64decode] and the rendering of non-string
        values inside f-strings) is taken as an interface (type classes
        [EmbModels], [VisionModels], [EmbTextAPI], [PyLib]). *)

From Stdlib Require Import ZArith Bool List String Ascii Lia.
Import ListNotations.
Open Scope string_scope.
Open Scope Z_scope.

Set Implicit Arguments.
Set Warnings "-register-all".

(* ================================================================== *)
(** * Python values *)

Module Py.

(** The attributes of an [EmbImage] instance, over a type [V] of values.
    Field names are those assigned in [EmbImage.__init__]. *)
Record EmbImageOf (V : Type) : Type := MkEmbImage {
  data : V;
  mime_type : V;
  _chunks : V;
  emb_model : V;
  vision_model : V;
  max_chunk_size : V;
  chunk_overlap : V;
  is_separator_regex : V;
  separators : V;
  keep_separator : V
}.

(** Python values that occur in documents, wire objects and instance
    attributes.  An [EmbText] instance is carried as its attribute
    dictionary: its class is not among the source files, and the code only
    ever tests [isinstance(value, EmbText)] and calls [value.to_json()]. *)
Inductive pyval : Type :=
| PNone
| PBool (b : bool)
| PInt (z : Z)
| PStr (s : string)
| PList (l : list pyval)
| PDict (d : list (string * pyval))
| PEmbText (attrs : list (string * pyval))
| PEmbImage (x : EmbImageOf pyval).

Definition dict := list (string * pyval).
Definition EmbImage := EmbImageOf pyval.

(** [v is None] *)
Definition is_None (v : pyval) : bool :=
  match v with PNone => true | _ => false end.

(** [isinstance(v, str)] *)
Definition is_str (v : pyval) : bool :=
  match v with PStr _ => true | _ => false end.

(** Truth value of [v] in a condition ([if v:]).  Instances of classes that
    define neither [__bool__] nor [__len__] (as [EmbImage]) are true. *)
Definition truthy (v : pyval) : bool :=
  match v with
  | PNone => false
  | PBool b => b
  | PInt z => negb (z =? 0)
  | PStr s => negb (String.eqb s EmptyString)
  | PList l => match l with [] => false | _ => true end
  | PDict d => match d with [] => false | _ => true end
  | PEmbText _ => true
  | PEmbImage _ => true
  end.

(** [v == s] for a string constant [s]: only a [str] equals a [str]. *)
Definition eq_str (v : pyval) (s : string) : bool :=
  match v with PStr s' => String.eqb s' s | _ => false end.

(** [v in l] for a list [l] of string constants. *)
Definition in_strs (v : pyval) (l : list string) : bool :=
  existsb (eq_str v) l.

(** ** Dictionaries *)

(** [d.get(k)] as an option: the first (and only) binding of [k]. *)
Fixpoint lookup (d : dict) (k : string) : option pyval :=
  match d with
  | [] => None
  | (k', v) :: d' => if String.eqb k k' then Some v else lookup d' k
  end.

(** [d.get(k, default)] *)
Definition get_default (d : dict) (k : string) (default : pyval) : pyval :=
  match lookup d k with Some v => v | None => default end.

(** [d.get(k)]: the default is [None]. *)
Definition get (d : dict) (k : string) : pyval := get_default d k PNone.

(** [d[k] = v]: an existing key keeps its position, a new key goes last. *)
Fixpoint dict_set (d : dict) (k : string) (v : pyval) : dict :=
  match d with
  | [] => [(k, v)]
  | (k', v') :: d' =>
      if String.eqb k k' then (k', v) :: d' else (k', v') :: dict_set d' k v
  end.

Definition keys (d : dict) : list string := map fst d.

(** ** Strings *)

(** [str.isspace] on one character (code points below 256): TAB, LF, VT, FF,
    CR, FS, GS, RS, US, SPACE, NEL and NBSP. *)
Definition isspace (c : ascii) : bool :=
  let n := Z.of_nat (nat_of_ascii c) in
  ((9 <=? n) && (n <=? 13)) || ((28 <=? n) && (n <=? 32))
  || (n =? 133) || (n =? 160).

Fixpoint lstrip (s : string) : string :=
  match s with
  | EmptyString => EmptyString
  | String c s' => if isspace c then lstrip s' else s
  end.

Fixpoint rstrip (s : string) : string :=
  match s with
  | EmptyString => EmptyString
  | String c s' =>
      match rstrip s' with
      | EmptyString => if isspace c then EmptyString else String c EmptyString
      | r => String c r
      end
  end.

(** [s.strip()] *)
Definition strip (s : string) : string := rstrip (lstrip s).

(** [sep.join(l)] *)
Fixpoint join (sep : string) (l : list string) : string :=
  match l with
  | [] => EmptyString
  | [s] => s
  | s :: l' => s ++ sep ++ join sep l'
  end.

End Py.
Import Py.

(* ================================================================== *)
(** * Exceptions and results *)

(** The exceptions that can leave the modelled functions.  The four
    [APIClientError] classes are those declared in [_collection.py]; each
    carries the [status_code] and [message] given to its constructor. *)
Inductive exn : Type :=
| ValueError (message : string)
| JSONDecodeError                     (* a [ValueError], from [response.json()] *)
| HTTPError                           (* from [response.raise_for_status()] *)
| AttributeError
| TypeError
| KeyError
| APIClientError (status_code message : pyval)
| AuthenticationError (status_code message : pyval)
| ClientRequestError (status_code message : pyval)
| ServerError (status_code message : pyval).

(** [isinstance(e, ValueError)], as tested by [except ValueError]. *)
Definition is_ValueError (e : exn) : bool :=
  match e with ValueError _ | JSONDecodeError => true | _ => false end.

(** [isinstance(e, requests.exceptions.HTTPError)] *)
Definition is_HTTPError (e : exn) : bool :=
  match e with HTTPError => true | _ => false end.

Inductive result (A : Type) : Type :=
| Return (a : A)
| Raise (e : exn).
Arguments Return {A} a.
Arguments Raise {A} e.

Definition bind {A B} (m : result A) (k : A -> result B) : result B :=
  match m with Return a => k a | Raise e => Raise e end.

(** [try: body  except <cls> as e: handler(e)] *)
Definition try_except {A} (body : result A) (cls : exn -> bool)
    (handler : exn -> result A) : result A :=
  match body with
  | Return a => Return a
  | Raise e => if cls e then handler e else Raise e
  end.

Notation "x <- m ;; k" := (bind m (fun x => k))
  (at level 61, m at next level, right associativity).
Notation "m ;;; k" := (bind m (fun _ => k))
  (at level 61, right associativity).

(** [if c: raise e] *)
Definition raise_if (c : bool) (e : exn) : result unit :=
  if c then Raise e else Return tt.

(* ================================================================== *)
(** * Interfaces to code outside the two source files *)

(** The constants of class [EmbModels] ([_emb_models.py]). *)
Class EmbModels : Type := {
  TEXT_EMBEDDING_3_SMALL : string;
  TEXT_EMBEDDING_3_LARGE : string;
  TEXT_EMBEDDING_ADA_002 : string
}.

(** The constants of class [VisionModels] ([_vision_models.py]). *)
Class VisionModels : Type := {
  GPT_4O_MINI : string;
  GPT_4O : string;
  GPT_4O_TURBO : string;
  GPT_O1 : string
}.

(** [EmbText.to_json] ([_emb_text.py]), on the attributes of the instance. *)
Class EmbTextAPI : Type := {
  EmbText_to_json : dict -> pyval
}.

(** The Python library functions the code calls.
      - [b64decode_validate s]: [base64.b64decode(s, validate=True)] returns
        rather than raises.
      - [format_other v]: the text an f-string produces for a value [v] that
        is not a [str]. *)
Class PyLib : Type := {
  b64decode_validate : string -> bool;
  format_other : pyval -> string
}.

(** [f"{v}"] *)
Definition format `{PyLib} (v : pyval) : string :=
  match v with PStr s => s | _ => format_other v end.

(* ================================================================== *)
(** * [class EmbImage]  ([_emb_json/_emb_image.py]) *)

Section EmbImage_class.
Context {emb_models : EmbModels} {vision_models : VisionModels} {pylib : PyLib}.

Definition SUPPORTED_EMB_MODELS : list string :=
  [TEXT_EMBEDDING_3_SMALL; TEXT_EMBEDDING_3_LARGE; TEXT_EMBEDDING_ADA_002].

Definition SUPPORTED_VISION_MODELS : list string :=
  [GPT_4O_MINI; GPT_4O; GPT_4O_TURBO; GPT_O1].

Definition SUPPORTED_MIME_TYPES : list string :=
  ["image/jpeg"; "image/jpg"; "image/png"; "image/gif"; "image/webp"].

(** [EmbImage.is_valid_data]: a [str] that is not blank and that
    [base64.b64decode(data, validate=True)] accepts. *)
Definition is_valid_data (data : pyval) : bool :=
  match data with
  | PStr s =>
      if negb (String.eqb (strip s) EmptyString)
      then b64decode_validate s
      else false
  | _ => false
  end.

Definition is_valid_mime_type (mime_type : pyval) : bool :=
  in_strs mime_type SUPPORTED_MIME_TYPES.

Definition is_valid_emb_model (emb_model : pyval) : bool :=
  is_None emb_model || in_strs emb_model SUPPORTED_EMB_MODELS.

Definition is_valid_vision_model (vision_model : pyval) : bool :=
  is_None vision_model || in_strs vision_model SUPPORTED_VISION_MODELS.

(** The four messages of [__init__]. *)
Definition msg_invalid_data : string :=
  "Invalid data: must be a non-empty string containing valid base64-encoded image data.".

Definition msg_unsupported_mime (mime_type : pyval) : string :=
  "Unsupported mime type: '" ++ format mime_type
  ++ "'. Supported types are: " ++ join ", " SUPPORTED_MIME_TYPES.

Definition msg_invalid_emb_model (emb_model : pyval) : string :=
  "Invalid embedding model: '" ++ format emb_model
  ++ "' is not supported. Supported models are: "
  ++ join ", " SUPPORTED_EMB_MODELS.

Definition msg_invalid_vision_model (vision_model : pyval) : string :=
  "Invalid vision model: '" ++ format vision_model
  ++ "' is not supported. Supported models are: "
  ++ join ", " SUPPORTED_VISION_MODELS.

(** The body of [EmbImage.__init__], every parameter bound. *)
Definition __init__
    (data mime_type emb_model vision_model max_chunk_size chunk_overlap
     is_separator_regex separators keep_separator : pyval)
  : result EmbImage :=
  raise_if (negb (is_valid_data data)) (ValueError msg_invalid_data) ;;;
  raise_if (negb (is_valid_mime_type mime_type))
           (ValueError (msg_unsupported_mime mime_type)) ;;;
  raise_if (negb (is_None emb_model) && negb (is_valid_emb_model emb_model))
           (ValueError (msg_invalid_emb_model emb_model)) ;;;
  raise_if (negb (is_None vision_model)
            && negb (is_valid_vision_model vision_model))
           (ValueError (msg_invalid_vision_model vision_model)) ;;;
  Return {| data := data;
            mime_type := mime_type;
            _chunks := PList [];
            emb_model := emb_model;
            vision_model := vision_model;
            max_chunk_size := max_chunk_size;
            chunk_overlap := chunk_overlap;
            is_separator_regex := is_separator_regex;
            separators := separators;
            keep_separator := keep_separator |}.

(** An argument the caller may leave out: [None] takes the default of the
    signature, [Some v] is the value supplied (which may be [PNone]). *)
Definition supplied (arg : option pyval) (default : pyval) : pyval :=
  match arg with Some v => v | None => default end.

(** The call [EmbImage(data, mime_type, ...)]: the defaults of the
    signature of [__init__] are bound, then its body runs. *)
Definition EmbImage_call
    (data mime_type : pyval)
    (emb_model vision_model max_chunk_size chunk_overlap
     is_separator_regex separators keep_separator : option pyval)
  : result EmbImage :=
  __init__ data mime_type
    (supplied emb_model (PStr TEXT_EMBEDDING_3_SMALL))
    (supplied vision_model (PStr GPT_4O_MINI))
    (supplied max_chunk_size PNone)
    (supplied chunk_overlap PNone)
    (supplied is_separator_regex PNone)
    (supplied separators PNone)
    (supplied keep_separator PNone).

(** [if v is not None: result[k] = v] *)
Definition set_if_not_None (result : dict) (k : string) (v : pyval) : dict :=
  if negb (is_None v) then dict_set result k v else result.

(** The inner dictionary [result] that [to_json] builds. *)
Definition to_json_result (self : EmbImage) : dict :=
  let result := [("data", data self); ("mime_type", mime_type self)] in
  let result :=
    if truthy (_chunks self) then dict_set result "chunks" (_chunks self)
    else result in
  let result := set_if_not_None result "emb_model" (emb_model self) in
  let result := set_if_not_None result "vision_model" (vision_model self) in
  let result := set_if_not_None result "max_chunk_size" (max_chunk_size self) in
  let result := set_if_not_None result "chunk_overlap" (chunk_overlap self) in
  let result :=
    set_if_not_None result "is_separator_regex" (is_separator_regex self) in
  let result := set_if_not_None result "separators" (separators self) in
  let result := set_if_not_None result "keep_separator" (keep_separator self) in
  result.

(** [EmbImage.to_json] *)
Definition to_json (self : EmbImage) : pyval :=
  PDict [("@embImage", PDict (to_json_result self))].

Definition msg_missing_data : string :=
  "JSON data must include 'data' field under '@embImage'. This field should contain base64-encoded image data.".

Definition msg_missing_mime_type : string :=
  "JSON data must include 'mime_type' field under '@embImage'. Supported types are: "
  ++ join ", " SUPPORTED_MIME_TYPES.

(** [instance._chunks = v] *)
Definition set_chunks (instance : EmbImage) (v : pyval) : EmbImage :=
  {| data := data instance;
     mime_type := mime_type instance;
     _chunks := v;
     emb_model := emb_model instance;
     vision_model := vision_model instance;
     max_chunk_size := max_chunk_size instance;
     chunk_overlap := chunk_overlap instance;
     is_separator_regex := is_separator_regex instance;
     separators := separators instance;
     keep_separator := keep_separator instance |}.

(** [EmbImage.from_json]; [json_dict] is the inner dictionary, the value
    under ["@embImage"]. *)
Definition from_json (json_dict : dict) : result EmbImage :=
  let image_data := get json_dict "data" in
  raise_if (is_None image_data) (ValueError msg_missing_data) ;;;
  let mime_type := get json_dict "mime_type" in
  raise_if (is_None mime_type) (ValueError msg_missing_mime_type) ;;;
  let emb_model := get json_dict "emb_model" in
  let vision_model := get json_dict "vision_model" in
  let max_chunk_size := get json_dict "max_chunk_size" in
  let chunk_overlap := get json_dict "chunk_overlap" in
  let is_separator_regex := get json_dict "is_separator_regex" in
  let separators := get json_dict "separators" in
  let keep_separator := get json_dict "keep_separator" in
  instance <- __init__ image_data mime_type emb_model vision_model
                max_chunk_size chunk_overlap is_separator_regex separators
                keep_separator ;;
  Return (set_chunks instance (get_default json_dict "chunks" (PList []))).

(** The wire object of an image is [{"@embImage": inner}] and [from_json]
    takes [inner]: [payload wire] is [wire["@embImage"]], required to be a
    dictionary ([from_json] calls its [get]). *)
Definition payload (wire : pyval) : result dict :=
  match wire with
  | PDict d =>
      match lookup d "@embImage" with
      | Some (PDict inner) => Return inner
      | Some _ => Raise AttributeError
      | None => Raise KeyError
      end
  | _ => Raise TypeError
  end.

(** Deserialising a wire object: [EmbImage.from_json(wire["@embImage"])]. *)
Definition deserialize (wire : pyval) : result EmbImage :=
  inner <- payload wire ;; from_json inner.

(** The instances the class produces: by a call of the constructor, or by
    [from_json]. *)
Inductive EmbImage_instance : EmbImage -> Prop :=
| instance_call data mime_type emb vision mcs co isr seps ks x :
    EmbImage_call data mime_type emb vision mcs co isr seps ks = Return x ->
    EmbImage_instance x
| instance_from_json json_dict x :
    from_json json_dict = Return x ->
    EmbImage_instance x.

End EmbImage_class.

(* ================================================================== *)
(** * [class Collection]  ([_collection.py]) *)

Section Collection_class.
Context {emb_text : EmbTextAPI}.

(** What [transform_emb_text] stores under a key whose value is [value]
    (the three branches of the loop body; any other value is left alone).
    The source updates [document] in place and returns it; the model
    returns the contents [document] has on return. *)
Fixpoint transform_value (value : pyval) : pyval :=
  match value with
  | PEmbText attrs => EmbText_to_json attrs
  | PDict d =>
      PDict (map (fun kv : string * pyval =>
                    let (key, v) := kv in (key, transform_value v)) d)
  | PList l =>
      PList (map (fun item =>
                    match item with
                    | PDict d =>
                        PDict (map (fun kv : string * pyval =>
                                      let (key, v) := kv in
                                      (key, transform_value v)) d)
                    | _ => item
                    end) l)
  | _ => value
  end.

(** [Collection.transform_emb_text] *)
Definition transform_emb_text (document : dict) : dict :=
  map (fun kv : string * pyval =>
         let (key, value) := kv in (key, transform_value value))
      document.

(** The element of the list comprehension:
    [self.transform_emb_text(item) if isinstance(item, dict) else item]. *)
Definition transform_item (item : pyval) : pyval :=
  match item with
  | PDict d => PDict (transform_emb_text d)
  | _ => item
  end.

End Collection_class.

(** A response of the transport ([requests.Response]), as far as
    [handle_response] looks at it: [status_code], [text], and what
    [response.json()] does, [Some v] when it returns [v] and [None] when the
    body is not JSON and it raises (a [ValueError]). *)
Record Response : Type := {
  status_code : Z;
  text : string;
  json : option pyval
}.

(** [response.raise_for_status()]: [HTTPError] for the statuses 400 to 599. *)
Definition raise_for_status (response : Response) : result unit :=
  raise_if ((400 <=? status_code response) && (status_code response <? 600))
           HTTPError.

(** [response.json()] *)
Definition response_json (response : Response) : result pyval :=
  match json response with
  | Some v => Return v
  | None => Raise JSONDecodeError
  end.

(** The [int] a value counts as in a comparison with an [int] ([bool] is a
    subclass of [int]); no other value of [pyval] is ordered with an [int].
    A Python [float], which is ordered with an [int], is not a value of
    [pyval]: a [code] that is a JSON number with a fraction or an exponent
    is outside the statements on [handle_response]. *)
Definition as_int (v : pyval) : option Z :=
  match v with
  | PInt z => Some z
  | PBool b => Some (if b then 1 else 0)
  | _ => None
  end.

(** [v == n] *)
Definition eq_int (v : pyval) (n : Z) : bool :=
  match as_int v with Some z => z =? n | None => false end.

(** [v >= n] *)
Definition ge_int (v : pyval) (n : Z) : result bool :=
  match as_int v with Some z => Return (n <=? z) | None => Raise TypeError end.

(** [v < n] *)
Definition lt_int (v : pyval) (n : Z) : result bool :=
  match as_int v with Some z => Return (z <? n) | None => Raise TypeError end.

(** [error_data.get]: only a [dict] has the method. *)
Definition get_method (error_data : pyval) : result dict :=
  match error_data with
  | PDict d => Return d
  | _ => Raise AttributeError
  end.

Definition msg_unknown_error : string := "An unknown error occurred.".

(** [Collection.handle_response] *)
Definition handle_response (response : Response) : result pyval :=
  try_except
    (raise_for_status response ;;;
     response_json response)
    is_HTTPError
    (fun e =>
       try_except
         (error_data <- response_json response ;;
          d <- get_method error_data ;;
          let status := get_default d "status" (PStr "error") in
          let code := get_default d "code" (PInt 500) in
          let message := get_default d "message" (PStr msg_unknown_error) in
          if eq_int code 401 then
            Raise (AuthenticationError code message)
          else
            ge400 <- ge_int code 400 ;;
            in4xx <- (if ge400 then lt_int code 500 else Return false) ;;
            if in4xx then
              Raise (ClientRequestError code message)
            else
              Raise (ServerError code message))
         is_ValueError
         (fun _ =>
            Raise (APIClientError (PInt (status_code response))
                                  (PStr (text response))))).

(* ================================================================== *)
(** * A concrete environment

    Values for the interfaces, to run the model on concrete inputs: model
    names as examples, a decoder that accepts canonical base64.  The general
    statements below hold for every environment. *)

Module Sample.

#[export] Instance emb_models : EmbModels := {|
  TEXT_EMBEDDING_3_SMALL := "text-embedding-3-small";
  TEXT_EMBEDDING_3_LARGE := "text-embedding-3-large";
  TEXT_EMBEDDING_ADA_002 := "text-embedding-ada-002"
|}.

#[export] Instance vision_models : VisionModels := {|
  GPT_4O_MINI := "gpt-4o-mini";
  GPT_4O := "gpt-4o";
  GPT_4O_TURBO := "gpt-4o-turbo";
  GPT_O1 := "o1"
|}.

(** A letter, a digit, [+] or [/]. *)
Definition b64_char (c : ascii) : bool :=
  let n := Z.of_nat (nat_of_ascii c) in
  ((65 <=? n) && (n <=? 90)) || ((97 <=? n) && (n <=? 122))
  || ((48 <=? n) && (n <=? 57)) || (n =? 43) || (n =? 47).

Definition b64_pad (c : ascii) : bool := Ascii.eqb c "=".

(** Canonical base64: groups of four characters of the alphabet, the last
    group possibly ending in one or two [=]. *)
Fixpoint b64_canonical (s : string) : bool :=
  match s with
  | EmptyString => true
  | String a (String b (String c (String d rest))) =>
      b64_char a && b64_char b &&
      match rest with
      | EmptyString =>
          (b64_char c && (b64_char d || b64_pad d))
          || (b64_pad c && b64_pad d)
      | _ => b64_char c && b64_char d && b64_canonical rest
      end
  | _ => false
  end.

(** Rendering of the constants [None], [True] and [False]; other values
    that are not strings are abbreviated. *)
Definition render_other (v : pyval) : string :=
  match v with
  | PNone => "None"
  | PBool true => "True"
  | PBool false => "False"
  | _ => "<value>"
  end.

#[export] Instance pylib : PyLib := {|
  b64decode_validate := b64_canonical;
  format_other := render_other
|}.

(** A stand-in for [EmbText.to_json]: the attributes that are not [None],
    under the tag ["@embText"]. *)
#[export] Instance emb_text : EmbTextAPI := {|
  EmbText_to_json attrs :=
    PDict [("@embText",
            PDict (filter (fun kv : string * pyval => negb (is_None (snd kv)))
                          attrs))]
|}.

(** The bytes [hello] in base64, and a supported mime type. *)
Definition hello_b64 : pyval := PStr "aGVsbG8=".
Definition png : pyval := PStr "image/png".

(** A wire object as the service returns it, with chunks, and the instance
    [from_json] makes of it. *)
Definition wire_cat : dict :=
  [("data", hello_b64); ("mime_type", png);
   ("chunks", PList [PStr "a cat"; PStr "on a mat"]);
   ("vision_model", PStr "gpt-4o"); ("max_chunk_size", PInt 200)].

Definition image_cat : EmbImage :=
  {| data := hello_b64; mime_type := png;
     _chunks := PList [PStr "a cat"; PStr "on a mat"];
     emb_model := PNone; vision_model := PStr "gpt-4o";
     max_chunk_size := PInt 200; chunk_overlap := PNone;
     is_separator_regex := PNone; separators := PNone;
     keep_separator := PNone |}.

(** The double quote, to write the text of a JSON body. *)
Definition dq : string := String (ascii_of_nat 34) EmptyString.
Definition quoted (s : string) : string := dq ++ s ++ dq.

(** The error envelope [{"code": 401, "message": "bad key"}]. *)
Definition envelope_401 : pyval :=
  PDict [("code", PInt 401); ("message", PStr "bad key")].
Definition envelope_401_text : string :=
  "{" ++ quoted "code" ++ ": 401, " ++ quoted "message" ++ ": "
  ++ quoted "bad key" ++ "}".

(** Status 300 with the envelope above as body. *)
Definition response_300_envelope : Response :=
  {| status_code := 300; text := envelope_401_text;
     json := Some envelope_401 |}.

(** Status 400 whose body is the JSON array [[1, 2]]. *)
Definition response_400_array : Response :=
  {| status_code := 400; text := "[1, 2]";
     json := Some (PList [PInt 1; PInt 2]) |}.

(** Status 400 whose envelope has the string ["401"] as code. *)
Definition response_400_code_str : Response :=
  {| status_code := 400;
     text := "{" ++ quoted "code" ++ ": " ++ quoted "401" ++ "}";
     json := Some (PDict [("code", PStr "401")]) |}.

(** Status 200 with a body that is not JSON. *)
Definition response_200_html : Response :=
  {| status_code := 200; text := "<html>ok</html>"; json := None |}.

(** Status 500 whose envelope carries the code 200. *)
Definition response_500_code_200 : Response :=
  {| status_code := 500;
     text := "{" ++ quoted "code" ++ ": 200, " ++ quoted "message" ++ ": "
             ++ quoted "boom" ++ "}";
     json := Some (PDict [("code", PInt 200); ("message", PStr "boom")]) |}.

(** Status 300 whose envelope carries the code 500. *)
Definition response_300_code_500 : Response :=
  {| status_code := 300;
     text := "{" ++ quoted "code" ++ ": 500, " ++ quoted "message" ++ ": "
             ++ quoted "boom" ++ "}";
     json := Some (PDict [("code", PInt 500); ("message", PStr "boom")]) |}.

(** Status 404 with its envelope. *)
Definition response_404 : Response :=
  {| status_code := 404;
     text := "{" ++ quoted "code" ++ ": 404, " ++ quoted "message" ++ ": "
             ++ quoted "not found" ++ "}";
     json := Some (PDict [("code", PInt 404);
                          ("message", PStr "not found")]) |}.

(** Status 502 with a body that is not JSON. *)
Definition response_502_text : Response :=
  {| status_code := 502; text := "upstream down"; json := None |}.

(** The document of the usage example in the docstring of [EmbImage]. *)
Definition image_hello : EmbImage :=
  {| data := hello_b64; mime_type := PStr "image/jpeg";
     _chunks := PList [];
     emb_model := PStr "text-embedding-3-small";
     vision_model := PStr "gpt-4o-mini";
     max_chunk_size := PNone; chunk_overlap := PNone;
     is_separator_regex := PNone; separators := PNone;
     keep_separator := PNone |}.

Definition image_document : dict :=
  [("title", PStr "Image Document"); ("image", PEmbImage image_hello)].

End Sample.

(* ================================================================== *)
(** * The specification's words, as definitions *)

Section Specification.
Context {emb_models : EmbModels} {vision_models : VisionModels} {pylib : PyLib}.

(** Payload non-emptiness: a string with a character that is not white
    space. *)
Definition nonempty_payload (data : pyval) : bool :=
  match data with
  | PStr s => negb (String.eqb (strip s) EmptyString)
  | _ => false
  end.

(** Payload format: the string decodes as base64. *)
Definition base64_decodable (data : pyval) : bool :=
  match data with
  | PStr s => b64decode_validate s
  | _ => false
  end.

(** The validation order of the specification: payload non-emptiness, then
    payload format, then mime-type membership, then embedding-model
    membership, then vision-model membership; the message of the first
    check that fails, [None] when all pass. *)
Definition first_failing_check (data mime_type emb_model vision_model : pyval)
  : option string :=
  if negb (nonempty_payload data) then Some msg_invalid_data
  else if negb (base64_decodable data) then Some msg_invalid_data
  else if negb (in_strs mime_type SUPPORTED_MIME_TYPES)
       then Some (msg_unsupported_mime mime_type)
  else if negb (is_None emb_model)
          && negb (in_strs emb_model SUPPORTED_EMB_MODELS)
       then Some (msg_invalid_emb_model emb_model)
  else if negb (is_None vision_model)
          && negb (in_strs vision_model SUPPORTED_VISION_MODELS)
       then Some (msg_invalid_vision_model vision_model)
  else None.

(** The omission contract of the wire format: the value found under key
    [k] of the inner dictionary of an instance [x]. *)
Definition optional_field (v : pyval) : option pyval :=
  if is_None v then None else Some v.

Definition wire_field (x : EmbImage) (k : string) : option pyval :=
  if String.eqb k "data" then Some (data x)
  else if String.eqb k "mime_type" then Some (mime_type x)
  else if String.eqb k "chunks"
       then (if truthy (_chunks x) then Some (_chunks x) else None)
  else if String.eqb k "emb_model" then optional_field (emb_model x)
  else if String.eqb k "vision_model" then optional_field (vision_model x)
  else if String.eqb k "max_chunk_size" then optional_field (max_chunk_size x)
  else if String.eqb k "chunk_overlap" then optional_field (chunk_overlap x)
  else if String.eqb k "is_separator_regex"
       then optional_field (is_separator_regex x)
  else if String.eqb k "separators" then optional_field (separators x)
  else if String.eqb k "keep_separator" then optional_field (keep_separator x)
  else None.

(** The optional attributes and their keys, in the order [to_json] emits
    them. *)
Definition optional_attributes : list (string * (EmbImage -> pyval)) :=
  [("emb_model", @emb_model pyval);
   ("vision_model", @vision_model pyval);
   ("max_chunk_size", @max_chunk_size pyval);
   ("chunk_overlap", @chunk_overlap pyval);
   ("is_separator_regex", @is_separator_regex pyval);
   ("separators", @separators pyval);
   ("keep_separator", @keep_separator pyval)].

(** What the validation of [__init__] leaves true of an instance. *)
Definition wire_safe (x : EmbImage) : Prop :=
  first_failing_check (data x) (mime_type x) (emb_model x) (vision_model x)
  = None.

End Specification.

(** A value with no [EmbText] instance anywhere inside it. *)
Fixpoint no_EmbText (v : pyval) : bool :=
  match v with
  | PEmbText _ => false
  | PList l => forallb no_EmbText l
  | PDict d => forallb (fun kv : string * pyval => no_EmbText (snd kv)) d
  | _ => true
  end.

(** The failure kinds of the classifier and the exception of each. *)
Inductive kind : Type := Authentication | ClientRequest | Server | Generic.

Definition Failure (k : kind) (code message : pyval) : exn :=
  match k with
  | Authentication => AuthenticationError code message
  | ClientRequest => ClientRequestError code message
  | Server => ServerError code message
  | Generic => APIClientError code message
  end.

(** The sub-classification by the application-level [code]. *)
Definition kind_of_code (code : Z) : kind :=
  if code =? 401 then Authentication
  else if (400 <=? code) && (code <? 500) then ClientRequest
  else Server.

Definition is_ServerError (e : exn) : bool :=
  match e with ServerError _ _ => true | _ => false end.

Definition is_APIClientError (e : exn) : bool :=
  match e with
  | APIClientError _ _ | AuthenticationError _ _
  | ClientRequestError _ _ | ServerError _ _ => true
  | _ => false
  end.

(* ================================================================== *)
(** * The rest of the two classes *)

(** The [chunks] property of [EmbImage]. *)
Definition chunks (self : EmbImage) : pyval := _chunks self.

(** The keys of the inner dictionary, in the order [to_json] sets them;
    they are also the keys [from_json] reads. *)
Definition wire_keys : list string :=
  ["data"; "mime_type"; "chunks"; "emb_model"; "vision_model";
   "max_chunk_size"; "chunk_overlap"; "is_separator_regex"; "separators";
   "keep_separator"].

(** Key [k] is in the inner dictionary of [x]. *)
Definition emitted (x : EmbImage) (k : string) : bool :=
  match wire_field x k with Some _ => true | None => false end.

(** What is left of the binding of key [k] in a wire object once it went
    through [from_json] and [to_json]: a [None] is dropped, and so are
    chunks that are false in a condition. *)
Definition kept (k : string) (binding : option pyval) : option pyval :=
  match binding with
  | Some v =>
      if (if String.eqb k "chunks" then truthy v else negb (is_None v))
      then Some v else None
  | None => None
  end.

(** Every character of [s] is white space. *)
Fixpoint all_space (s : string) : bool :=
  match s with
  | EmptyString => true
  | String c s' => isspace c && all_space s'
  end.

(** A position inside a document: keys of dictionaries and indices of
    lists, from the outside in. *)
Inductive step : Type := Key (k : string) | Index (n : nat).

Fixpoint at_path (path : list step) (v : pyval) : option pyval :=
  match path with
  | [] => Some v
  | Key k :: path' =>
      match v with
      | PDict d =>
          match lookup d k with
          | Some v' => at_path path' v'
          | None => None
          end
      | _ => None
      end
  | Index n :: path' =>
      match v with
      | PList l =>
          match nth_error l n with
          | Some v' => at_path path' v'
          | None => None
          end
      | _ => None
      end
  end.

(** The positions the transformer visits as values of a dictionary:
    below the value of a key ([in_list = false]) every key and every index
    goes on; below an element of a list ([in_list = true]) only a key does. *)
Fixpoint visited (in_list : bool) (path : list step) : bool :=
  match path with
  | [] => negb in_list
  | Key _ :: path' => visited false path'
  | Index _ :: path' => if in_list then false else visited true path'
  end.

(** An instance of [Collection], with the attributes of its [__init__]. *)
Record Collection : Type := {
  api_key : string;
  project_id : string;
  db_name : string;
  collection_name : string
}.

(** [Collection.get_collection_url] *)
Definition get_collection_url (self : Collection) : string :=
  "https://api.capybaradb.co/v0/db/" ++ project_id self ++ "_"
  ++ db_name self ++ "/collection/" ++ collection_name self ++ "/document".

(** [Collection.get_headers] *)
Definition get_headers (self : Collection) : dict :=
  [("Authorization", PStr ("Bearer " ++ api_key self));
   ("Content-Type", PStr "application/json")].

(** The transport: [requests.post], [requests.put] and [requests.delete]
    called with [(url, headers=headers, json=data)]; each returns a
    response or raises. *)
Class Requests : Type := {
  requests_post : string -> dict -> pyval -> result Response;
  requests_put : string -> dict -> pyval -> result Response;
  requests_delete : string -> dict -> pyval -> result Response
}.

(** The dictionary [data] that [query] builds. *)
Definition query_data (query emb_model top_k include_values projection : pyval)
  : dict :=
  let data := [("query", query)] in
  let data := set_if_not_None data "emb_model" emb_model in
  let data := set_if_not_None data "top_k" top_k in
  let data := set_if_not_None data "include_values" include_values in
  let data := set_if_not_None data "projection" projection in
  data.

(** The dictionary [data] that [find] builds. *)
Definition find_data (filter projection sort limit skip : pyval) : dict :=
  [("filter", filter); ("projection", projection); ("sort", sort);
   ("limit", limit); ("skip", skip)].

Section Collection_methods.
Context {emb_text : EmbTextAPI} {requests : Requests}.

(** [Collection.insert] *)
Definition insert (self : Collection) (documents : list dict)
  : result pyval :=
  let url := get_collection_url self in
  let headers := get_headers self in
  let transformed_documents := map transform_emb_text documents in
  let data := [("documents", PList (map PDict transformed_documents))] in
  response <- requests_post url headers (PDict data) ;;
  handle_response response.

(** [Collection.update]; [upsert] is [False] when the caller leaves it
    out. *)
Definition update (self : Collection) (filter : pyval) (update : dict)
    (upsert : pyval) : result pyval :=
  let url := get_collection_url self in
  let headers := get_headers self in
  let transformed_update := transform_emb_text update in
  let data := [("filter", filter); ("update", PDict transformed_update);
               ("upsert", upsert)] in
  response <- requests_put url headers (PDict data) ;;
  handle_response response.

(** [Collection.delete] *)
Definition delete (self : Collection) (filter : pyval) : result pyval :=
  let url := get_collection_url self in
  let headers := get_headers self in
  let data := [("filter", filter)] in
  response <- requests_delete url headers (PDict data) ;;
  handle_response response.

(** [Collection.find]; an argument the caller leaves out is [None]. *)
Definition find (self : Collection)
    (filter projection sort limit skip : pyval) : result pyval :=
  let url := get_collection_url self ++ "/find" in
  let headers := get_headers self in
  let data := find_data filter projection sort limit skip in
  response <- requests_post url headers (PDict data) ;;
  handle_response response.

(** [Collection.query]; an argument the caller leaves out is [None]. *)
Definition query (self : Collection)
    (query emb_model top_k include_values projection : pyval)
  : result pyval :=
  let url := get_collection_url self ++ "/query" in
  let headers := get_headers self in
  let data := query_data query emb_model top_k include_values projection in
  response <- requests_post url headers (PDict data) ;;
  handle_response response.

End Collection_methods.

(** Concrete values for the statements on the rest of the code. *)
Module Demo.


(** A transport that answers every request with [Sample.response_404]. *)
Definition always_404 : Requests := {|
  requests_post _ _ _ := Return Sample.response_404;
  requests_put _ _ _ := Return Sample.response_404;
  requests_delete _ _ _ := Return Sample.response_404
|}.

Definition books : Collection :=
  {| api_key := "key"; project_id := "p1"; db_name := "library";
     collection_name := "books" |}.

(** A document with an [EmbText] under a key, one inside a dictionary
    inside a list, and one that is itself an element of a list. *)
Definition note : dict := [("text", PStr "hi")].

Definition nested_document : dict :=
  [("title", PStr "t");
   ("body", PEmbText note);
   ("parts", PList [PDict [("p", PEmbText note)]; PEmbText note])].

(** A document without any [EmbText]. *)
Definition plain_document : dict :=
  [("title", PStr "t"); ("tags", PList [PStr "a"; PDict [("n", PInt 1)]])].

(** A wire object with a key [from_json] does not know and a [None]. *)
Definition wire_extra : dict :=
  [("data", Sample.hello_b64); ("mime_type", Sample.png);
   ("emb_model", PNone); ("id", PInt 7)].

Definition wire_plain : dict :=
  [("data", Sample.hello_b64); ("mime_type", Sample.png)].

(** Wire objects that [from_json] refuses: without [data], with a [data]
    that is not base64 and without [mime_type], with that [data] and a
    [mime_type]. *)
Definition wire_no_data : dict := [("mime_type", Sample.png)].
Definition wire_no_mime : dict := [("data", PStr "!!")].
Definition wire_bad_data : dict :=
  [("data", PStr "!!"); ("mime_type", Sample.png)].

(** A wire object whose [chunks] is [None], and what [from_json] makes of
    it. *)
Definition wire_null_chunks : dict :=
  [("data", Sample.hello_b64); ("mime_type", Sample.png);
   ("chunks", PNone)].

Definition image_null_chunks : EmbImage :=
  {| data := Sample.hello_b64; mime_type := Sample.png; _chunks := PNone;
     emb_model := PNone; vision_model := PNone;
     max_chunk_size := PNone; chunk_overlap := PNone;
     is_separator_regex := PNone; separators := PNone;
     keep_separator := PNone |}.

(** What [from_json] makes of [wire_plain] and of [wire_extra]. *)
Definition image_plain : EmbImage :=
  {| data := Sample.hello_b64; mime_type := Sample.png;
     _chunks := PList [];
     emb_model := PNone; vision_model := PNone;
     max_chunk_size := PNone; chunk_overlap := PNone;
     is_separator_regex := PNone; separators := PNone;
     keep_separator := PNone |}.

(** What [EmbImage("aGVsbG8=", "image/png")] returns. *)
Definition image_default : EmbImage :=
  {| data := Sample.hello_b64; mime_type := Sample.png;
     _chunks := PList [];
     emb_model := PStr "text-embedding-3-small";
     vision_model := PStr "gpt-4o-mini";
     max_chunk_size := PNone; chunk_overlap := PNone;
     is_separator_regex := PNone; separators := PNone;
     keep_separator := PNone |}.

(** Status 500 whose envelope carries the code 404, the message of
    [Sample.response_404] and a [status] field. *)
Definition response_500_code_404 : Response :=
  {| status_code := 500; text := "error";
     json := Some (PDict [("status", PStr "failed"); ("code", PInt 404);
                          ("message", PStr "not found")]) |}.

End Demo.

(** Case analysis on a key against the ten keys of the wire format. *)
Ltac key_cases k :=
  repeat match goal with
         | |- context [String.eqb k ?c] =>
             let E := fresh "E" in
             destruct (String.eqb k c) eqn:E;
             [apply String.eqb_eq in E; subst k; cbn | ]
         end.

(* ================================================================== *)
(** * Running the model *)

Section Runs.
Import Sample.

Example run_is_valid_data : is_valid_data hello_b64 = true.
Proof. reflexivity. Qed.

Example run_call_defaults :
  EmbImage_call hello_b64 png None None None None None None None
  = Return {| data := hello_b64; mime_type := png; _chunks := PList [];
              emb_model := PStr "text-embedding-3-small";
              vision_model := PStr "gpt-4o-mini";
              max_chunk_size := PNone; chunk_overlap := PNone;
              is_separator_regex := PNone; separators := PNone;
              keep_separator := PNone |}.
Proof. reflexivity. Qed.

Example run_call_bmp :
  EmbImage_call hello_b64 (PStr "image/bmp") None None None None None None None
  = Raise (ValueError
      "Unsupported mime type: 'image/bmp'. Supported types are: image/jpeg, image/jpg, image/png, image/gif, image/webp").
Proof. reflexivity. Qed.

Example run_to_json :
  to_json {| data := hello_b64; mime_type := png;
             _chunks := PList [PStr "a cat"];
             emb_model := PNone; vision_model := PStr "gpt-4o";
             max_chunk_size := PInt 200; chunk_overlap := PNone;
             is_separator_regex := PNone; separators := PNone;
             keep_separator := PBool false |}
  = PDict [("@embImage",
            PDict [("data", hello_b64); ("mime_type", png);
                   ("chunks", PList [PStr "a cat"]);
                   ("vision_model", PStr "gpt-4o");
                   ("max_chunk_size", PInt 200);
                   ("keep_separator", PBool false)])].
Proof. reflexivity. Qed.

Example run_transform_nested :
  transform_emb_text
    [("a", PDict [("b", PEmbText [("text", PStr "hi")])]); ("n", PInt 3)]
  = [("a", PDict [("b", PDict [("@embText", PDict [("text", PStr "hi")])])]);
     ("n", PInt 3)].
Proof. reflexivity. Qed.

Example run_classify_401 :
  handle_response
    {| status_code := 401; text := envelope_401_text;
       json := Some envelope_401 |}
  = Raise (AuthenticationError (PInt 401) (PStr "bad key")).
Proof. reflexivity. Qed.

Example run_classify_502 :
  handle_response
    {| status_code := 502; text := "upstream down"; json := None |}
  = Raise (APIClientError (PInt 502) (PStr "upstream down")).
Proof. reflexivity. Qed.

End Runs.

(* ================================================================== *)
(** * Construction and validation *)

Section Construction.
Context {emb_models : EmbModels} {vision_models : VisionModels} {pylib : PyLib}.

Lemma is_valid_data_checks data :
  is_valid_data data = nonempty_payload data && base64_decodable data.
Proof.
  destruct data; reflexivity.
Qed.

(** [__init__] raises the message of the first failing check and otherwise
    stores its arguments, with no chunks. *)
Lemma init_first_failing_check
    data mime emb vision mcs co isr seps ks :
  __init__ data mime emb vision mcs co isr seps ks =
  match first_failing_check data mime emb vision with
  | Some message => Raise (ValueError message)
  | None =>
      Return {| data := data; mime_type := mime; _chunks := PList [];
                emb_model := emb; vision_model := vision;
                max_chunk_size := mcs; chunk_overlap := co;
                is_separator_regex := isr; separators := seps;
                keep_separator := ks |}
  end.
Proof.
  unfold __init__, first_failing_check.
  rewrite is_valid_data_checks.
  unfold is_valid_mime_type, is_valid_emb_model, is_valid_vision_model.
  destruct (nonempty_payload data); [| reflexivity].
  destruct (base64_decodable data); [| reflexivity].
  destruct (in_strs mime SUPPORTED_MIME_TYPES); [| reflexivity].
  destruct (is_None emb), (in_strs emb SUPPORTED_EMB_MODELS);
    try reflexivity;
    destruct (is_None vision), (in_strs vision SUPPORTED_VISION_MODELS);
    reflexivity.
Qed.

Lemma blank_payload_fails s mime emb vision :
  strip s = EmptyString ->
  first_failing_check (PStr s) mime emb vision = Some msg_invalid_data.
Proof.
  intros Hs. unfold first_failing_check, nonempty_payload.
  now rewrite Hs.
Qed.

End Construction.

(* ================================================================== *)
(** * Dictionaries *)

Lemma lookup_dict_set d k k' v :
  lookup (dict_set d k' v) k = if String.eqb k k' then Some v else lookup d k.
Proof.
  induction d as [| [k0 v0] d IH]; simpl.
  - reflexivity.
  - destruct (String.eqb_spec k' k0) as [-> | Hne]; simpl.
    + now destruct (String.eqb k k0).
    + destruct (String.eqb_spec k k0) as [-> | Hne'].
      * destruct (String.eqb_spec k0 k') as [E | _]; [congruence | reflexivity].
      * exact IH.
Qed.

Lemma lookup_set_if_not_None d k k' v :
  lookup (set_if_not_None d k' v) k =
  if String.eqb k k'
  then match optional_field v with Some w => Some w | None => lookup d k end
  else lookup d k.
Proof.
  unfold set_if_not_None, optional_field.
  destruct (is_None v); simpl.
  - now destruct (String.eqb k k').
  - apply lookup_dict_set.
Qed.

Lemma lookup_In d k v : lookup d k = Some v -> In (k, v) d.
Proof.
  induction d as [| [k0 v0] d IH]; simpl; [discriminate |].
  destruct (String.eqb_spec k k0) as [-> | _].
  - intros [= ->]. now left.
  - intros H. right. now apply IH.
Qed.

Lemma get_optional_field d k v :
  lookup d k = optional_field v -> get d k = v.
Proof.
  unfold get, get_default, optional_field. intros ->.
  now destruct v.
Qed.

(* ================================================================== *)
(** * Serialisation *)

(** Under every key, the inner dictionary of [to_json] holds what the
    omission contract says. *)
Lemma lookup_to_json_result x k :
  lookup (to_json_result x) k = wire_field x k.
Proof.
  unfold to_json_result, wire_field.
  rewrite !lookup_set_if_not_None.
  assert (Hc : forall d0 : dict,
             lookup (if truthy (_chunks x)
                     then dict_set d0 "chunks" (_chunks x) else d0) k
             = if String.eqb k "chunks"
               then (if truthy (_chunks x) then Some (_chunks x)
                     else lookup d0 k)
               else lookup d0 k).
  { intros d0. destruct (truthy (_chunks x)).
    - apply lookup_dict_set.
    - now destruct (String.eqb k "chunks"). }
  rewrite Hc. clear Hc. simpl lookup.
  unfold optional_field.
  key_cases k;
    repeat match goal with
           | |- context [is_None ?v] => destruct (is_None v)
           | |- context [truthy ?v] => destruct (truthy v)
           end; reflexivity.
Qed.

Section Instances.
Context {emb_models : EmbModels} {vision_models : VisionModels} {pylib : PyLib}.

Lemma init_Return data mime emb vision mcs co isr seps ks x :
  __init__ data mime emb vision mcs co isr seps ks = Return x ->
  first_failing_check data mime emb vision = None
  /\ x = {| data := data; mime_type := mime; _chunks := PList [];
            emb_model := emb; vision_model := vision;
            max_chunk_size := mcs; chunk_overlap := co;
            is_separator_regex := isr; separators := seps;
            keep_separator := ks |}.
Proof.
  rewrite init_first_failing_check.
  destruct (first_failing_check data mime emb vision); [discriminate |].
  intros [= <-]. now split.
Qed.

Lemma bind_Return {A B} (m : result A) (k : A -> result B) b :
  bind m k = Return b -> exists a, m = Return a /\ k a = Return b.
Proof. destruct m; simpl; [eauto | discriminate]. Qed.

(** Every instance passed the validation of [__init__]. *)
Lemma instance_wire_safe x : EmbImage_instance x -> wire_safe x.
Proof.
  intros [d m e v mcs co isr s k x' H | json_dict x' H].
  - apply init_Return in H as [Hc ->]. exact Hc.
  - unfold from_json in H.
    apply bind_Return in H as (_ & _ & H).
    apply bind_Return in H as (_ & _ & H).
    apply bind_Return in H as (i & Hi & H).
    apply init_Return in Hi as [Hc ->].
    injection H as <-. exact Hc.
Qed.

(** A constructor call leaves the chunks empty. *)
Lemma call_chunks_empty data mime emb vision mcs co isr seps ks x :
  EmbImage_call data mime emb vision mcs co isr seps ks = Return x ->
  _chunks x = PList [].
Proof. intros H. apply init_Return in H as [_ ->]. reflexivity. Qed.

Lemma wire_safe_checks x :
  wire_safe x ->
  is_str (data x) = true
  /\ is_valid_data (data x) = true
  /\ in_strs (mime_type x) SUPPORTED_MIME_TYPES = true
  /\ is_valid_emb_model (emb_model x) = true
  /\ is_valid_vision_model (vision_model x) = true.
Proof.
  unfold wire_safe, first_failing_check.
  rewrite is_valid_data_checks.
  unfold is_valid_emb_model, is_valid_vision_model.
  destruct (nonempty_payload (data x)) eqn:Hn; [| discriminate].
  destruct (base64_decodable (data x)); [| discriminate].
  destruct (in_strs (mime_type x) SUPPORTED_MIME_TYPES); [| discriminate].
  destruct (is_None (emb_model x)),
           (in_strs (emb_model x) SUPPORTED_EMB_MODELS);
    try discriminate;
    destruct (is_None (vision_model x)),
             (in_strs (vision_model x) SUPPORTED_VISION_MODELS);
    try discriminate; intros _; repeat split;
    destruct (data x); try discriminate; reflexivity.
Qed.

Lemma in_strs_not_None v l : in_strs v l = true -> is_None v = false.
Proof. destruct v; try reflexivity. unfold in_strs. now induction l. Qed.

Lemma wire_safe_not_None x :
  wire_safe x -> is_None (data x) = false /\ is_None (mime_type x) = false.
Proof.
  intros H. apply wire_safe_checks in H as (Hs & _ & Hm & _). split.
  - now destruct (data x).
  - now apply in_strs_not_None in Hm.
Qed.

(** [from_json] on the inner dictionary of [to_json x]: every attribute
    comes back, and the chunks come back when they are true in a
    condition, the empty list otherwise. *)
Lemma from_json_to_json_result x :
  wire_safe x ->
  from_json (to_json_result x)
  = Return (set_chunks x (if truthy (_chunks x) then _chunks x
                          else PList [])).
Proof.
  intros Hx.
  destruct (wire_safe_not_None Hx) as [Hd Hm].
  unfold from_json.
  assert (G : forall k v, wire_field x k = optional_field v ->
                          get (to_json_result x) k = v).
  { intros k v E. apply get_optional_field.
    now rewrite lookup_to_json_result. }
  assert (Gd : get (to_json_result x) "data" = data x).
  { apply G. unfold optional_field. now rewrite Hd. }
  assert (Gm : get (to_json_result x) "mime_type" = mime_type x).
  { apply G. unfold optional_field. now rewrite Hm. }
  rewrite Gd, Gm, Hd, Hm.
  rewrite (G "emb_model" (emb_model x) eq_refl),
          (G "vision_model" (vision_model x) eq_refl),
          (G "max_chunk_size" (max_chunk_size x) eq_refl),
          (G "chunk_overlap" (chunk_overlap x) eq_refl),
          (G "is_separator_regex" (is_separator_regex x) eq_refl),
          (G "separators" (separators x) eq_refl),
          (G "keep_separator" (keep_separator x) eq_refl).
  unfold raise_if. cbn [bind].
  rewrite init_first_failing_check, Hx. cbn [bind].
  unfold get_default. rewrite lookup_to_json_result.
  change (wire_field x "chunks")
    with (if truthy (_chunks x) then Some (_chunks x) else None).
  destruct x; simpl. now destruct (truthy _chunks0).
Qed.

End Instances.

(* ================================================================== *)
(** * The wire format of [EmbImage] *)

Section Wire.
Context {emb_models : EmbModels} {vision_models : VisionModels} {pylib : PyLib}.

(** [from_json] is not applied to the tagged object itself: there it finds
    no [data]. *)
Lemma from_json_tagged_object (inner : pyval) :
  from_json [("@embImage", inner)] = Raise (ValueError msg_missing_data).
Proof. reflexivity. Qed.

(** C4 (amended). Round trip: for every instance [x] the class produces,
    deserialising the serialisation of [x] returns an instance, which is
    [x] with its chunks replaced by the empty list when they are false in a
    condition.  So the round trip returns [x] itself, with the same data,
    mime type, optional attributes (each [None] or not as in [x]) and
    chunks, exactly when the chunks of [x] are true in a condition or are
    the empty list: for every instance whose chunks are a list, empty or
    not, as the code declares them, and so for every instance a
    constructor call returns. *)
Theorem C4_round_trip (x : EmbImage) :
  EmbImage_instance x ->
  deserialize (to_json x)
  = Return (set_chunks x (if truthy (_chunks x) then _chunks x
                          else PList []))
  /\ (deserialize (to_json x) = Return x
      <-> truthy (_chunks x) = true \/ _chunks x = PList [])
  /\ (forall l, _chunks x = PList l -> deserialize (to_json x) = Return x)
  /\ (forall data mime emb vision mcs co isr seps ks,
        EmbImage_call data mime emb vision mcs co isr seps ks = Return x ->
        deserialize (to_json x) = Return x).
Proof.
  intros Hx.
  assert (E : deserialize (to_json x)
              = Return (set_chunks x (if truthy (_chunks x) then _chunks x
                                      else PList []))).
  { change (from_json (to_json_result x)
            = Return (set_chunks x (if truthy (_chunks x) then _chunks x
                                    else PList []))).
    exact (from_json_to_json_result (instance_wire_safe Hx)). }
  assert (S : deserialize (to_json x) = Return x
              <-> truthy (_chunks x) = true \/ _chunks x = PList []).
  { rewrite E. destruct x as [d m c e v mcs co isr seps ks].
    unfold set_chunks. cbn [Py.data Py.mime_type Py._chunks Py.emb_model
      Py.vision_model Py.max_chunk_size Py.chunk_overlap
      Py.is_separator_regex Py.separators Py.keep_separator].
    destruct (truthy c) eqn:Hc; split.
    - intros _. now left.
    - reflexivity.
    - intros [= <-]. now right.
    - intros [H | ->]; [discriminate | reflexivity]. }
  split; [exact E |]. split; [exact S |]. split.
  - intros l Hl. apply S. rewrite Hl. destruct l; [now right | now left].
  - intros data mime emb vision mcs co isr seps ks Hcall.
    apply S. right. exact (call_chunks_empty _ _ _ _ _ _ _ _ _ Hcall).
Qed.

(** C7. Omission contract: the inner dictionary of the serialisation of an
    instance [x] always has the keys [data] and [mime_type]; it has the key
    [chunks] exactly when the chunks of [x] are non-empty; it has the key of
    an optional attribute exactly when the attribute is not [None]; no key
    holds [None], and there are no other keys. *)
Theorem C7_omission_contract (x : EmbImage) :
  EmbImage_instance x ->
  let result := to_json_result x in
  to_json x = PDict [("@embImage", PDict result)]
  /\ lookup result "data" = Some (data x)
  /\ lookup result "mime_type" = Some (mime_type x)
  /\ lookup result "chunks"
     = (if truthy (_chunks x) then Some (_chunks x) else None)
  /\ (forall l, _chunks x = PList l ->
      (lookup result "chunks" <> None <-> l <> []))
  /\ Forall (fun kf : string * (EmbImage -> pyval) =>
               lookup result (fst kf)
               = (if is_None (snd kf x) then None else Some (snd kf x)))
            optional_attributes
  /\ (forall k v, lookup result k = Some v -> v <> PNone)
  /\ (forall k, lookup result k <> None ->
      In k ("data" :: "mime_type" :: "chunks" :: map fst optional_attributes)).
Proof.
  intros Hx result. subst result.
  destruct (wire_safe_not_None (instance_wire_safe Hx)) as [Hd Hm].
  split; [reflexivity |].
  split; [now rewrite lookup_to_json_result |].
  split; [now rewrite lookup_to_json_result |].
  split; [now rewrite lookup_to_json_result |].
  split.
  { intros l Hl. rewrite lookup_to_json_result.
    change (wire_field x "chunks")
      with (if truthy (_chunks x) then Some (_chunks x) else None).
    rewrite Hl. destruct l; simpl; split; congruence. }
  split.
  { unfold optional_attributes.
    repeat constructor; now rewrite lookup_to_json_result. }
  split.
  - intros k v. rewrite lookup_to_json_result.
    unfold wire_field, optional_field.
    key_cases k;
      repeat match goal with
             | |- context [if is_None ?a then _ else _] =>
                 destruct (is_None a) eqn:?
             | |- context [if truthy ?a then _ else _] =>
                 destruct (truthy a) eqn:?
             end;
      try discriminate; intros [= <-] Hv; rewrite Hv in *; cbn in *;
      congruence.
  - intros k. rewrite lookup_to_json_result.
    unfold wire_field, optional_attributes.
    key_cases k; intros H; simpl; try tauto.
Qed.

End Wire.

(* ================================================================== *)
(** * Claims on construction *)

Section Construction_claims.
Context {emb_models : EmbModels} {vision_models : VisionModels} {pylib : PyLib}.

(** C8. [EmbImage.__init__] runs its checks in the order payload
    non-emptiness, base64 decodability, mime-type membership,
    embedding-model membership, vision-model membership, each against its
    fixed allow-list, and raises the [ValueError] of the first check that
    fails; when none fails it returns the instance.  In particular: blank
    data fails whatever the other arguments; with valid data the mime type
    [image/bmp] fails with a message that lists the supported mime types;
    with valid data and mime type an embedding model (then a vision model)
    outside its allow-list fails with a message that lists the supported
    models; and [None] is accepted for both model arguments. *)
Theorem C8_validation_order
    (data mime emb vision mcs co isr seps ks : pyval) :
  __init__ data mime emb vision mcs co isr seps ks
  = match first_failing_check data mime emb vision with
    | Some message => Raise (ValueError message)
    | None =>
        Return {| data := data; mime_type := mime; _chunks := PList [];
                  emb_model := emb; vision_model := vision;
                  max_chunk_size := mcs; chunk_overlap := co;
                  is_separator_regex := isr; separators := seps;
                  keep_separator := ks |}
    end
  /\ (forall s, strip s = EmptyString ->
      __init__ (PStr s) mime emb vision mcs co isr seps ks
      = Raise (ValueError msg_invalid_data))
  /\ (is_valid_data data = true ->
      __init__ data (PStr "image/bmp") emb vision mcs co isr seps ks
      = Raise (ValueError
          "Unsupported mime type: 'image/bmp'. Supported types are: image/jpeg, image/jpg, image/png, image/gif, image/webp"))
  /\ (forall m,
      is_valid_data data = true -> is_valid_mime_type mime = true ->
      in_strs (PStr m) SUPPORTED_EMB_MODELS = false ->
      __init__ data mime (PStr m) vision mcs co isr seps ks
      = Raise (ValueError
          ("Invalid embedding model: '" ++ m
           ++ "' is not supported. Supported models are: "
           ++ TEXT_EMBEDDING_3_SMALL ++ ", " ++ TEXT_EMBEDDING_3_LARGE
           ++ ", " ++ TEXT_EMBEDDING_ADA_002)))
  /\ (forall m,
      is_valid_data data = true -> is_valid_mime_type mime = true ->
      is_valid_emb_model emb = true ->
      in_strs (PStr m) SUPPORTED_VISION_MODELS = false ->
      __init__ data mime emb (PStr m) mcs co isr seps ks
      = Raise (ValueError
          ("Invalid vision model: '" ++ m
           ++ "' is not supported. Supported models are: "
           ++ GPT_4O_MINI ++ ", " ++ GPT_4O ++ ", " ++ GPT_4O_TURBO
           ++ ", " ++ GPT_O1)))
  /\ (is_valid_data data = true -> is_valid_mime_type mime = true ->
      __init__ data mime PNone PNone mcs co isr seps ks
      = Return {| data := data; mime_type := mime; _chunks := PList [];
                  emb_model := PNone; vision_model := PNone;
                  max_chunk_size := mcs; chunk_overlap := co;
                  is_separator_regex := isr; separators := seps;
                  keep_separator := ks |}).
Proof.
  split; [apply init_first_failing_check |].
  split.
  { intros s Hs. rewrite init_first_failing_check.
    now rewrite blank_payload_fails. }
  split.
  { intros Hd. rewrite init_first_failing_check.
    unfold first_failing_check. rewrite is_valid_data_checks in Hd.
    apply andb_prop in Hd as [-> ->]. reflexivity. }
  split.
  { intros m Hd Hm He. rewrite init_first_failing_check.
    unfold first_failing_check, is_valid_mime_type in *.
    rewrite is_valid_data_checks in Hd.
    apply andb_prop in Hd as [-> ->]. rewrite Hm, He. reflexivity. }
  split.
  { intros m Hd Hm He Hv. rewrite init_first_failing_check.
    unfold first_failing_check, is_valid_mime_type, is_valid_emb_model in *.
    rewrite is_valid_data_checks in Hd.
    apply andb_prop in Hd as [-> ->]. rewrite Hm, Hv.
    destruct (is_None emb); cbn [orb] in He; [| rewrite He]; reflexivity. }
  intros Hd Hm. rewrite init_first_failing_check.
  unfold first_failing_check, is_valid_mime_type in *.
  rewrite is_valid_data_checks in Hd.
  apply andb_prop in Hd as [-> ->]. rewrite Hm. reflexivity.
Qed.

(** C2 (amended). Construction does not compare [chunk_overlap] with
    [max_chunk_size]: whether a call of the constructor returns or raises,
    and what it raises, is decided by [data], [mime_type], [emb_model] and
    [vision_model] alone, and the instance it returns stores both chunking
    arguments as supplied.  In particular a call that supplies both with
    [chunk_overlap >= max_chunk_size] and passes the four checks returns an
    instance holding the two values. *)
Theorem C2_chunking_not_validated
    (data mime : pyval)
    (emb vision mcs co isr seps ks : option pyval) :
  EmbImage_call data mime emb vision mcs co isr seps ks
  = match first_failing_check data mime
            (supplied emb (PStr TEXT_EMBEDDING_3_SMALL))
            (supplied vision (PStr GPT_4O_MINI)) with
    | Some message => Raise (ValueError message)
    | None =>
        Return {| data := data; mime_type := mime; _chunks := PList [];
                  emb_model := supplied emb (PStr TEXT_EMBEDDING_3_SMALL);
                  vision_model := supplied vision (PStr GPT_4O_MINI);
                  max_chunk_size := supplied mcs PNone;
                  chunk_overlap := supplied co PNone;
                  is_separator_regex := supplied isr PNone;
                  separators := supplied seps PNone;
                  keep_separator := supplied ks PNone |}
    end
  /\ (forall size overlap : Z,
      mcs = Some (PInt size) -> co = Some (PInt overlap) ->
      overlap >= size ->
      first_failing_check data mime
        (supplied emb (PStr TEXT_EMBEDDING_3_SMALL))
        (supplied vision (PStr GPT_4O_MINI)) = None ->
      exists x,
        EmbImage_call data mime emb vision mcs co isr seps ks = Return x
        /\ max_chunk_size x = PInt size
        /\ chunk_overlap x = PInt overlap).
Proof.
  split; [apply init_first_failing_check |].
  intros size overlap -> -> _ Hc.
  unfold EmbImage_call. rewrite init_first_failing_check, Hc.
  eexists. split; [reflexivity |]. now split.
Qed.



End Construction_claims.

(* ================================================================== *)
(** * The response classifier *)

Section Classifier.

Lemma handle_response_error_status response :
  400 <= status_code response < 600 ->
  handle_response response
  = try_except
      (error_data <- response_json response ;;
       d <- get_method error_data ;;
       let code := get_default d "code" (PInt 500) in
       let message := get_default d "message" (PStr msg_unknown_error) in
       if eq_int code 401 then Raise (AuthenticationError code message)
       else
         ge400 <- ge_int code 400 ;;
         in4xx <- (if ge400 then lt_int code 500 else Return false) ;;
         if in4xx then Raise (ClientRequestError code message)
         else Raise (ServerError code message))
      is_ValueError
      (fun _ => Raise (APIClientError (PInt (status_code response))
                                      (PStr (text response)))).
Proof.
  intros [Hlo Hhi]. unfold handle_response, raise_for_status.
  apply Z.leb_le in Hlo. apply Z.ltb_lt in Hhi. now rewrite Hlo, Hhi.
Qed.

Lemma handle_response_other_status response :
  status_code response < 400 \/ 600 <= status_code response ->
  handle_response response = response_json response.
Proof.
  intros H. unfold handle_response, raise_for_status.
  assert (E : (400 <=? status_code response)
              && (status_code response <? 600) = false).
  { apply andb_false_iff. destruct H; [left | right].
    - now apply Z.leb_gt.
    - now apply Z.ltb_ge. }
  rewrite E. unfold response_json. now destruct (json response).
Qed.

(** With an integer [code], the handler raises the kind of the code. *)
Lemma handle_response_envelope response d code :
  400 <= status_code response < 600 ->
  json response = Some (PDict d) ->
  get_default d "code" (PInt 500) = PInt code ->
  handle_response response
  = Raise (Failure (kind_of_code code) (PInt code)
                   (get_default d "message" (PStr msg_unknown_error))).
Proof.
  intros Hs Hj Hc. rewrite (handle_response_error_status _ Hs).
  unfold response_json. rewrite Hj. cbn [bind get_method]. rewrite Hc.
  unfold kind_of_code, eq_int, ge_int, lt_int. cbn [as_int bind].
  destruct (code =? 401); [reflexivity |].
  destruct (400 <=? code); cbn [andb]; [| reflexivity].
  now destruct (code <? 500).
Qed.

(** C3 (amended). For every transport status from 400 to 599 (those for
    which [raise_for_status] raises): when the body decodes to a JSON object
    whose [code] (500 when absent) is an integer, classification reads
    [code] and [message] (default ["An unknown error occurred."]) and raises
    the authentication failure when [code = 401], the client-request failure
    when [400 <= code < 500] and [code <> 401], and the server failure
    otherwise, each carrying [code] and [message]; when the body is not
    valid JSON it raises the generic failure carrying the transport status
    and the raw body text. *)
Theorem C3_error_classification (response : Response) :
  400 <= status_code response < 600 ->
  (json response = None ->
   handle_response response
   = Raise (APIClientError (PInt (status_code response))
                           (PStr (text response))))
  /\ (forall d code message,
      json response = Some (PDict d) ->
      get_default d "code" (PInt 500) = PInt code ->
      get_default d "message" (PStr "An unknown error occurred.") = message ->
      (code = 401 ->
       handle_response response
       = Raise (AuthenticationError (PInt code) message))
      /\ (400 <= code < 500 -> code <> 401 ->
          handle_response response
          = Raise (ClientRequestError (PInt code) message))
      /\ (code < 400 \/ 500 <= code ->
          handle_response response
          = Raise (ServerError (PInt code) message)))
  /\ (forall d,
      json response = Some (PDict d) -> lookup d "code" = None ->
      handle_response response
      = Raise (ServerError (PInt 500)
                 (get_default d "message"
                    (PStr "An unknown error occurred.")))).
Proof.
  intros Hs. split; [| split].
  - intros Hj. rewrite (handle_response_error_status _ Hs).
    unfold response_json. now rewrite Hj.
  - intros d code message Hj Hc <-.
    rewrite (handle_response_envelope _ Hs Hj Hc). unfold kind_of_code.
    repeat split.
    + intros ->. reflexivity.
    + intros [Hlo Hhi] Hne.
      apply Z.eqb_neq in Hne. apply Z.leb_le in Hlo. apply Z.ltb_lt in Hhi.
      now rewrite Hne, Hlo, Hhi.
    + intros H.
      assert (E1 : (code =? 401) = false) by (apply Z.eqb_neq; lia).
      assert (E2 : (400 <=? code) && (code <? 500) = false).
      { apply andb_false_iff. destruct H; [left | right].
        - now apply Z.leb_gt.
        - now apply Z.ltb_ge. }
      now rewrite E1, E2.
  - intros d Hj Hc.
    assert (E : get_default d "code" (PInt 500) = PInt 500)
      by (unfold get_default; now rewrite Hc).
    now rewrite (handle_response_envelope _ Hs Hj E).
Qed.

(** C5 (amended). For every 2xx transport status whose raw body is not
    valid JSON, classification lets the decode error of [response.json()]
    (a [ValueError]) leave unclassified: no failure of the classifier is
    raised and nothing is returned. *)
Theorem C5_success_status_decode_error (response : Response) :
  200 <= status_code response < 300 ->
  json response = None ->
  handle_response response = Raise JSONDecodeError
  /\ is_APIClientError JSONDecodeError = false.
Proof.
  intros Hs Hj. split; [| reflexivity].
  rewrite handle_response_other_status by lia.
  unfold response_json. now rewrite Hj.
Qed.

(** C6 (amended). For every response with a transport status from 400 to
    599 whose body decodes to a JSON object with an integer [code] (500 when
    absent), classification raises the server failure exactly when
    [code >= 500] or [code < 400], that is when [code] is outside
    [400..499]; it then carries [code] and the message. *)
Theorem C6_server_failure_iff (response : Response) d code :
  400 <= status_code response < 600 ->
  json response = Some (PDict d) ->
  get_default d "code" (PInt 500) = PInt code ->
  ((exists e, handle_response response = Raise e /\ is_ServerError e = true)
   <-> (500 <= code \/ code < 400))
  /\ (500 <= code \/ code < 400 ->
      handle_response response
      = Raise (ServerError (PInt code)
                 (get_default d "message" (PStr msg_unknown_error)))).
Proof.
  intros Hs Hj Hc. rewrite (handle_response_envelope _ Hs Hj Hc).
  unfold kind_of_code.
  destruct (Z.eqb_spec code 401) as [-> | Hne].
  { split; [split |]; [intros (e & [= <-] & He); discriminate | lia | lia]. }
  destruct (Z.leb_spec 400 code) as [Hlo | Hlo]; cbn [andb].
  - destruct (Z.ltb_spec code 500) as [Hhi | Hhi]; cbn [Failure].
    + split; [split |]; [intros (e & [= <-] & He); discriminate | lia | lia].
    + split; [split |]; [lia | eexists; split; reflexivity | reflexivity].
  - cbn [Failure].
    split; [split |]; [lia | eexists; split; reflexivity | reflexivity].
Qed.

End Classifier.

(* ================================================================== *)
(** * The document transformer *)

Section Transformer.
Context {emb_text : EmbTextAPI}.

Lemma transform_value_dict d :
  transform_value (PDict d) = PDict (transform_emb_text d).
Proof. reflexivity. Qed.

(** The list comprehension: dictionaries are transformed, every other
    element is kept as it is. *)
Lemma transform_value_list l :
  transform_value (PList l) = PList (map transform_item l).
Proof. reflexivity. Qed.

Lemma transform_item_not_dict item :
  (forall d, item <> PDict d) -> transform_item item = item.
Proof. intros H. destruct item; try reflexivity. now destruct (H d). Qed.

Lemma transform_emb_text_cons key value document :
  transform_emb_text ((key, value) :: document)
  = (key, transform_value value) :: transform_emb_text document.
Proof. reflexivity. Qed.

Lemma transform_emb_text_app d1 d2 :
  transform_emb_text (d1 ++ d2)%list
  = (transform_emb_text d1 ++ transform_emb_text d2)%list.
Proof. apply map_app. Qed.

(** No key is dropped, added or moved. *)
Lemma transform_emb_text_keys document :
  keys (transform_emb_text document) = keys document.
Proof.
  unfold keys, transform_emb_text. rewrite map_map.
  apply map_ext. now intros [key value].
Qed.

(** An [EmbText] under a key is replaced by its [to_json()]. *)
Lemma transform_EmbText_value d1 key attrs d2 :
  transform_emb_text (d1 ++ (key, PEmbText attrs) :: d2)%list
  = (transform_emb_text d1 ++ (key, EmbText_to_json attrs)
     :: transform_emb_text d2)%list.
Proof. now rewrite transform_emb_text_app. Qed.

(** A value with no [EmbText] inside is left as it is. *)
Lemma transform_value_no_EmbText :
  forall v, no_EmbText v = true -> transform_value v = v.
Proof.
  fix IH 1. intros v Hv.
  destruct v as [ | b | z | s | l | d | a | x]; try reflexivity.
  - rewrite transform_value_list. f_equal. simpl in Hv.
    induction l as [| item l IHl]; [reflexivity |].
    simpl in Hv. apply andb_prop in Hv as [H1 H2].
    simpl. f_equal; [| exact (IHl H2)].
    pose proof (IH item H1) as Hitem.
    destruct item as [ | | | | | d0 | | ]; try reflexivity.
    exact Hitem.
  - rewrite transform_value_dict. f_equal. simpl in Hv.
    induction d as [| [k w] d IHd]; [reflexivity |].
    simpl in Hv. apply andb_prop in Hv as [H1 H2].
    rewrite transform_emb_text_cons.
    f_equal; [f_equal; exact (IH w H1) | exact (IHd H2)].
  - discriminate.
Qed.

(** The asymmetry of sequences: under a key whose value is a list, the
    elements that are dictionaries are transformed and every other element
    is kept; an [EmbText] or [EmbImage] that is itself an element stays as
    it is, and an [EmbText] under a key of a dictionary of the list is
    replaced by its [to_json()]. *)
Lemma sequence_asymmetry d1 key l d2 :
  transform_emb_text (d1 ++ (key, PList l) :: d2)%list
  = (transform_emb_text d1 ++ (key, PList (map transform_item l))
     :: transform_emb_text d2)%list
  /\ (forall attrs, transform_item (PEmbText attrs) = PEmbText attrs)
  /\ (forall x, transform_item (PEmbImage x) = PEmbImage x)
  /\ (forall l', transform_item (PList l') = PList l')
  /\ (forall d, transform_item (PDict d) = PDict (transform_emb_text d))
  /\ (forall k attrs,
      transform_item (PDict [(k, PEmbText attrs)])
      = PDict [(k, EmbText_to_json attrs)]).
Proof. rewrite transform_emb_text_app. repeat split. Qed.

(** C1. What the code does with an [EmbImage]: an [EmbImage] instance that
    is the value of a key stays in the returned document as the instance,
    not as its wire format [to_json()]; so does the document of the usage
    example of [EmbImage]. *)
Theorem C1_EmbImage_value_left_as_instance :
  (forall d1 key (x : EmbImage) d2,
     transform_emb_text (d1 ++ (key, PEmbImage x) :: d2)%list
     = (transform_emb_text d1 ++ (key, PEmbImage x)
        :: transform_emb_text d2)%list
     /\ PEmbImage x <> to_json x)
  /\ transform_emb_text Sample.image_document = Sample.image_document
  /\ lookup (transform_emb_text Sample.image_document) "image"
     <> Some (to_json Sample.image_hello).
Proof.
  split; [| split].
  - intros d1 key x d2. rewrite transform_emb_text_app. split.
    + reflexivity.
    + discriminate.
  - reflexivity.
  - discriminate.
Qed.

(** C9. What the code does with an [EmbImage] inside a dictionary inside a
    list: the transformer reaches the dictionary and leaves the instance
    in place, not its wire format. *)
Theorem C9_EmbImage_in_dict_in_list_left_as_instance
    (key inner_key : string) (x : EmbImage) :
  transform_emb_text [(key, PList [PDict [(inner_key, PEmbImage x)]])]
  = [(key, PList [PDict [(inner_key, PEmbImage x)]])]
  /\ transform_emb_text [(key, PList [PDict [(inner_key, PEmbImage x)]])]
     <> [(key, PList [PDict [(inner_key, to_json x)]])].
Proof. split; [reflexivity | discriminate]. Qed.

End Transformer.

(* ================================================================== *)
(** * The statements at concrete inputs *)

Section Concrete.
Import Sample.

(** [image_cat] is what [from_json] makes of [wire_cat]. *)
Lemma image_cat_instance : EmbImage_instance image_cat.
Proof. apply (@instance_from_json _ _ _ wire_cat). reflexivity. Defined.

(** C4 (amended) at [image_cat], an instance with two chunks. *)
Lemma C4_round_trip_witness :
  EmbImage_instance image_cat
  /\ _chunks image_cat = PList [PStr "a cat"; PStr "on a mat"]
  /\ deserialize (to_json image_cat) = Return image_cat.
Proof.
  split; [exact image_cat_instance |].
  split; [reflexivity |].
  destruct (C4_round_trip image_cat_instance) as (_ & _ & H & _).
  exact (H [PStr "a cat"; PStr "on a mat"] eq_refl).
Defined.

(** C7 at [image_cat]. *)
Lemma C7_omission_contract_witness :
  EmbImage_instance image_cat
  /\ lookup (to_json_result image_cat) "data" = Some hello_b64
  /\ lookup (to_json_result image_cat) "chunks"
     = Some (PList [PStr "a cat"; PStr "on a mat"])
  /\ (forall k v, lookup (to_json_result image_cat) k = Some v -> v <> PNone).
Proof.
  split; [exact image_cat_instance |].
  destruct (C7_omission_contract image_cat_instance)
    as (_ & Hd & _ & Hc & _ & _ & Hn & _).
  split; [exact Hd |]. split; [exact Hc | exact Hn].
Defined.

(** C8 at blank data, at [image/bmp], at an unknown embedding model, at
    an unknown vision model, and at [None] for both models. *)
Lemma C8_validation_order_witness :
  __init__ (PStr " ") png PNone PNone PNone PNone PNone PNone PNone
  = Raise (ValueError msg_invalid_data)
  /\ __init__ hello_b64 (PStr "image/bmp") PNone PNone PNone PNone PNone
       PNone PNone
     = Raise (ValueError
         "Unsupported mime type: 'image/bmp'. Supported types are: image/jpeg, image/jpg, image/png, image/gif, image/webp")
  /\ __init__ hello_b64 png (PStr "not-a-model") PNone PNone PNone PNone
       PNone PNone
     = Raise (ValueError
         "Invalid embedding model: 'not-a-model' is not supported. Supported models are: text-embedding-3-small, text-embedding-3-large, text-embedding-ada-002")
  /\ __init__ hello_b64 png PNone (PStr "gpt-5") PNone PNone PNone
       PNone PNone
     = Raise (ValueError
         "Invalid vision model: 'gpt-5' is not supported. Supported models are: gpt-4o-mini, gpt-4o, gpt-4o-turbo, o1")
  /\ __init__ hello_b64 png PNone PNone PNone PNone PNone PNone PNone
     = Return {| data := hello_b64; mime_type := png; _chunks := PList [];
                 emb_model := PNone; vision_model := PNone;
                 max_chunk_size := PNone; chunk_overlap := PNone;
                 is_separator_regex := PNone; separators := PNone;
                 keep_separator := PNone |}.
Proof.
  destruct (C8_validation_order hello_b64 png PNone PNone PNone PNone PNone
              PNone PNone) as (_ & H2 & H3 & H4 & H5 & H6).
  split; [apply (H2 " "); reflexivity |].
  split; [apply H3; reflexivity |].
  split; [apply (H4 "not-a-model"); reflexivity |].
  split; [apply (H5 "gpt-5"); reflexivity |].
  apply H6; reflexivity.
Defined.

(** C2 as stated fails: [EmbImage("aGVsbG8=", "image/png",
    max_chunk_size=10, chunk_overlap=20)] returns an instance and raises
    nothing. *)
Lemma C2_counterexample :
  20 >= 10
  /\ EmbImage_call hello_b64 png None None (Some (PInt 10)) (Some (PInt 20))
       None None None
     = Return {| data := hello_b64; mime_type := png; _chunks := PList [];
                 emb_model := PStr "text-embedding-3-small";
                 vision_model := PStr "gpt-4o-mini";
                 max_chunk_size := PInt 10; chunk_overlap := PInt 20;
                 is_separator_regex := PNone; separators := PNone;
                 keep_separator := PNone |}
  /\ ~ (exists e,
         EmbImage_call hello_b64 png None None (Some (PInt 10))
           (Some (PInt 20)) None None None = Raise e).
Proof.
  split; [lia |]. split; [reflexivity |]. intros [e H]. discriminate H.
Qed.

(** C2 (amended) at the same call. *)
Lemma C2_chunking_not_validated_witness :
  exists x,
    EmbImage_call hello_b64 png None None (Some (PInt 10)) (Some (PInt 20))
      None None None = Return x
    /\ max_chunk_size x = PInt 10
    /\ chunk_overlap x = PInt 20.
Proof.
  destruct (C2_chunking_not_validated hello_b64 png None None
              (Some (PInt 10)) (Some (PInt 20)) None None None) as [_ H].
  apply (H 10 20); [reflexivity | reflexivity | | reflexivity].
  intros H'. discriminate H'.
Defined.


(** C3 as stated fails: on status 300 with the envelope of code 401 the
    decoded body is returned and no authentication failure is raised; on a
    body that is a JSON array, and on an envelope whose code is a string,
    an [AttributeError] and a [TypeError] leave the function. *)
Lemma C3_counterexample :
  (status_code response_300_envelope < 200
   \/ 300 <= status_code response_300_envelope)
  /\ json response_300_envelope = Some envelope_401
  /\ handle_response response_300_envelope = Return envelope_401
  /\ handle_response response_300_envelope
     <> Raise (AuthenticationError (PInt 401) (PStr "bad key"))
  /\ handle_response response_400_array = Raise AttributeError
  /\ handle_response response_400_code_str = Raise TypeError.
Proof.
  split; [right; cbn; lia |]. split; [reflexivity |].
  split; [reflexivity |]. split; [discriminate |].
  split; reflexivity.
Qed.

(** C3 (amended) at status 404 with its envelope and at status 502 with a
    body that is not JSON. *)
Lemma C3_error_classification_witness :
  handle_response response_404
  = Raise (ClientRequestError (PInt 404) (PStr "not found"))
  /\ handle_response response_502_text
     = Raise (APIClientError (PInt 502) (PStr "upstream down")).
Proof.
  split.
  - assert (Hs : 400 <= status_code response_404 < 600) by (cbn; lia).
    destruct (C3_error_classification response_404 Hs) as (_ & H & _).
    destruct (H [("code", PInt 404); ("message", PStr "not found")] 404
                (PStr "not found") eq_refl eq_refl eq_refl) as (_ & Hc & _).
    apply Hc; lia.
  - assert (Hs : 400 <= status_code response_502_text < 600) by (cbn; lia).
    destruct (C3_error_classification response_502_text Hs) as (H & _).
    apply H. reflexivity.
Defined.

(** C5 as stated fails: on status 200 with a body that is not JSON the
    decode error leaves the function, not the generic failure. *)
Lemma C5_counterexample :
  200 <= status_code response_200_html < 300
  /\ json response_200_html = None
  /\ handle_response response_200_html = Raise JSONDecodeError
  /\ handle_response response_200_html
     <> Raise (APIClientError (PInt 200) (PStr "<html>ok</html>")).
Proof.
  split; [cbn; lia |]. split; [reflexivity |].
  split; [reflexivity | discriminate].
Qed.

(** C5 (amended) at the same response. *)
Lemma C5_success_status_decode_error_witness :
  200 <= status_code response_200_html < 300
  /\ json response_200_html = None
  /\ handle_response response_200_html = Raise JSONDecodeError.
Proof.
  assert (Hs : 200 <= status_code response_200_html < 300) by (cbn; lia).
  split; [exact Hs |]. split; [reflexivity |].
  exact (proj1 (C5_success_status_decode_error response_200_html Hs
                  eq_refl)).
Defined.

(** C6 as stated fails in both directions: on status 500 with the
    envelope of code 200 the server failure is raised although the code is
    below 500; on status 300 with the envelope of code 500 the decoded body
    is returned and no failure is raised. *)
Lemma C6_counterexample :
  json response_500_code_200
  = Some (PDict [("code", PInt 200); ("message", PStr "boom")])
  /\ handle_response response_500_code_200
     = Raise (ServerError (PInt 200) (PStr "boom"))
  /\ ~ 200 >= 500
  /\ json response_300_code_500
     = Some (PDict [("code", PInt 500); ("message", PStr "boom")])
  /\ 500 >= 500
  /\ handle_response response_300_code_500
     = Return (PDict [("code", PInt 500); ("message", PStr "boom")]).
Proof.
  split; [reflexivity |]. split; [reflexivity |]. split; [lia |].
  split; [reflexivity |]. split; [lia | reflexivity].
Qed.

(** C6 (amended) at status 500 with the envelope of code 200. *)
Lemma C6_server_failure_iff_witness :
  handle_response response_500_code_200
  = Raise (ServerError (PInt 200) (PStr "boom")).
Proof.
  assert (Hs : 400 <= status_code response_500_code_200 < 600)
    by (cbn; lia).
  destruct (@C6_server_failure_iff response_500_code_200
              [("code", PInt 200); ("message", PStr "boom")] 200
              Hs eq_refl eq_refl) as [_ H].
  apply H. right. lia.
Defined.

End Concrete.

(* ================================================================== *)
(** * More on [EmbImage]: validation, [from_json], the wire object *)

Section EmbImage_more.
Context {emb_models : EmbModels} {vision_models : VisionModels} {pylib : PyLib}.

Lemma in_strs_In v l :
  in_strs v l = true <-> exists s, v = PStr s /\ In s l.
Proof.
  unfold in_strs. rewrite existsb_exists. split.
  - intros (s & Hin & He). destruct v; try discriminate.
    apply String.eqb_eq in He. subst. eauto.
  - intros (s & -> & Hin). exists s. split; [exact Hin |].
    apply String.eqb_refl.
Qed.

Lemma lstrip_empty s : lstrip s = EmptyString <-> all_space s = true.
Proof.
  induction s as [| c s IH]; simpl; [tauto |].
  destruct (isspace c); simpl; [exact IH |]. split; discriminate.
Qed.

Lemma rstrip_empty s : rstrip s = EmptyString <-> all_space s = true.
Proof.
  induction s as [| c s IH]; simpl; [tauto |].
  destruct (rstrip s) eqn:Hr.
  - destruct (isspace c); simpl; [| split; discriminate].
    split; intros _; [now apply IH | reflexivity].
  - split; [discriminate |]. intros H. apply andb_prop in H as [_ H].
    apply IH in H. discriminate.
Qed.

Lemma all_space_lstrip s : all_space (lstrip s) = all_space s.
Proof.
  induction s as [| c s IH]; simpl; [reflexivity |].
  destruct (isspace c) eqn:Hc; simpl; [exact IH | now rewrite Hc].
Qed.

Lemma strip_empty s : strip s = EmptyString <-> all_space s = true.
Proof. unfold strip. now rewrite rstrip_empty, all_space_lstrip. Qed.

Lemma is_valid_data_iff (data : pyval) :
  is_valid_data data = true
  <-> exists s, data = PStr s /\ all_space s = false
                /\ b64decode_validate s = true.
Proof.
  split.
  - destruct data as [ | | | s | | | | ]; try discriminate.
    unfold is_valid_data.
    destruct (String.eqb_spec (strip s) EmptyString) as [E | E];
      [discriminate |].
    simpl. intros Hb. exists s. repeat split; [| exact Hb].
    destruct (all_space s) eqn:Hs; [| reflexivity].
    apply strip_empty in Hs. contradiction.
  - intros (s & -> & Hs & Hb). unfold is_valid_data.
    destruct (String.eqb_spec (strip s) EmptyString) as [E | E]; simpl.
    + apply strip_empty in E. congruence.
    + exact Hb.
Qed.

(** X9. [is_valid_data] accepts exactly the strings that have a character
    that is not white space and that the base64 decoder accepts; a string
    of white space alone (the empty string too) is rejected whatever the
    decoder says of it. *)
Theorem X9_is_valid_data_characterised :
  (forall data,
     is_valid_data data = true
     <-> exists s, data = PStr s /\ all_space s = false
                   /\ b64decode_validate s = true)
  /\ (forall s, all_space s = true -> is_valid_data (PStr s) = false).
Proof.
  split; [exact is_valid_data_iff |].
  intros s Hs. destruct (is_valid_data (PStr s)) eqn:E; [| reflexivity].
  apply is_valid_data_iff in E as (s' & [= <-] & Hs' & _). congruence.
Qed.

(** X1. Every instance the class produces, by a constructor call or by
    [from_json], has for [data] a string that is not blank and that the
    base64 decoder accepts, for [mime_type] one of the supported mime
    types, and for [emb_model] and [vision_model] either [None] or a
    supported model. *)
Theorem X1_instance_validated (x : EmbImage) :
  EmbImage_instance x ->
  (exists s, data x = PStr s /\ all_space s = false
             /\ b64decode_validate s = true)
  /\ (exists m, mime_type x = PStr m /\ In m SUPPORTED_MIME_TYPES)
  /\ (emb_model x = PNone
      \/ exists m, emb_model x = PStr m /\ In m SUPPORTED_EMB_MODELS)
  /\ (vision_model x = PNone
      \/ exists m, vision_model x = PStr m /\ In m SUPPORTED_VISION_MODELS).
Proof.
  intros Hx. apply instance_wire_safe, wire_safe_checks in Hx
    as (_ & Hd & Hm & He & Hv).
  split; [now apply is_valid_data_iff |].
  split; [now apply in_strs_In |].
  unfold is_valid_emb_model, is_valid_vision_model in *. split.
  - destruct (emb_model x); try (right; now apply in_strs_In).
    now left.
  - destruct (vision_model x); try (right; now apply in_strs_In).
    now left.
Qed.

(** [from_json], branch by branch. *)
Lemma from_json_branches (w : dict) :
  from_json w
  = if is_None (get w "data") then Raise (ValueError msg_missing_data)
    else if is_None (get w "mime_type")
    then Raise (ValueError msg_missing_mime_type)
    else
      match first_failing_check (get w "data") (get w "mime_type")
              (get w "emb_model") (get w "vision_model") with
      | Some message => Raise (ValueError message)
      | None =>
          Return {| data := get w "data";
                    mime_type := get w "mime_type";
                    _chunks := get_default w "chunks" (PList []);
                    emb_model := get w "emb_model";
                    vision_model := get w "vision_model";
                    max_chunk_size := get w "max_chunk_size";
                    chunk_overlap := get w "chunk_overlap";
                    is_separator_regex := get w "is_separator_regex";
                    separators := get w "separators";
                    keep_separator := get w "keep_separator" |}
      end.
Proof.
  unfold from_json.
  destruct (is_None (get w "data")); [reflexivity |].
  destruct (is_None (get w "mime_type")); [reflexivity |].
  unfold raise_if. cbn [bind]. rewrite init_first_failing_check.
  now destruct (first_failing_check _ _ _ _).
Qed.

(** X2. A constructor call never sets chunks: the instance it returns has
    the empty list as [chunks], and its serialisation has no key
    [chunks]. *)
Theorem X2_constructor_leaves_chunks_empty
    data mime emb vision mcs co isr seps ks (x : EmbImage) :
  EmbImage_call data mime emb vision mcs co isr seps ks = Return x ->
  chunks x = PList []
  /\ lookup (to_json_result x) "chunks" = None
  /\ ~ In "chunks" (keys (to_json_result x)).
Proof.
  intros H. apply init_Return in H as [_ ->].
  split; [reflexivity |]. split; [now rewrite lookup_to_json_result |].
  unfold to_json_result, set_if_not_None, keys. cbn [_chunks truthy].
  cbn [Py.emb_model Py.vision_model Py.max_chunk_size Py.chunk_overlap
       Py.is_separator_regex Py.separators Py.keep_separator].
  repeat match goal with
         | |- context [is_None ?v] => destruct (is_None v)
         end; cbn; intuition discriminate.
Qed.

(** X3. What [from_json] checks first: a wire object whose [data] is
    absent or [None] is refused with the message on [data], whatever else
    it holds; one with [data] but whose [mime_type] is absent or [None] is
    refused with the message that lists the supported mime types, before
    [data] is validated; otherwise the checks of the constructor decide. *)
Theorem X3_from_json_required_fields (w : dict) :
  (lookup w "data" = None \/ lookup w "data" = Some PNone ->
   from_json w = Raise (ValueError msg_missing_data))
  /\ (get w "data" <> PNone ->
      lookup w "mime_type" = None \/ lookup w "mime_type" = Some PNone ->
      from_json w
      = Raise (ValueError
          "JSON data must include 'mime_type' field under '@embImage'. Supported types are: image/jpeg, image/jpg, image/png, image/gif, image/webp"))
  /\ (get w "data" <> PNone -> get w "mime_type" <> PNone ->
      forall message,
        first_failing_check (get w "data") (get w "mime_type")
          (get w "emb_model") (get w "vision_model") = Some message ->
        from_json w = Raise (ValueError message)).
Proof.
  rewrite from_json_branches.
  assert (N : forall v, v <> PNone -> is_None v = false)
    by (intros v Hv; destruct v; try reflexivity; now destruct Hv).
  split; [| split].
  - intros H. unfold get, get_default. now destruct H as [-> | ->].
  - intros Hd H. rewrite (N _ Hd).
    unfold get at 1, get_default. now destruct H as [-> | ->].
  - intros Hd Hm message Hc. now rewrite (N _ Hd), (N _ Hm), Hc.
Qed.

Lemma get_dict_set_other w k k' v :
  String.eqb k k' = false -> get (dict_set w k' v) k = get w k.
Proof.
  intros E. unfold get, get_default. now rewrite lookup_dict_set, E.
Qed.

(** X4. [from_json] does not validate [chunks]: whatever value a wire
    object holds under [chunks], [from_json] returns or raises as it does
    without it, and the instance it returns holds that value as its
    chunks. *)
Theorem X4_from_json_chunks_verbatim (w : dict) (v : pyval) :
  from_json (dict_set w "chunks" v)
  = match from_json w with
    | Return x => Return (set_chunks x v)
    | Raise e => Raise e
    end.
Proof.
  rewrite !from_json_branches.
  rewrite !get_dict_set_other by reflexivity.
  unfold get_default at 1. rewrite lookup_dict_set. cbn [String.eqb].
  destruct (is_None (get w "data")); [reflexivity |].
  destruct (is_None (get w "mime_type")); [reflexivity |].
  now destruct (first_failing_check _ _ _ _).
Qed.

(** X5. [from_json] reads the ten keys of the wire format and nothing
    else, and does not tell an absent key from one bound to [None]: two
    wire objects that give the same [get] under the ten keys, and the same
    binding of [chunks], give the same result. *)
Theorem X5_from_json_reads_wire_keys_only (w w' : dict) :
  (forall k, In k wire_keys -> get w k = get w' k) ->
  lookup w "chunks" = lookup w' "chunks" ->
  from_json w = from_json w'.
Proof.
  intros H Hc. rewrite !from_json_branches.
  assert (Hg : Forall (fun k => get w k = get w' k) wire_keys)
    by (apply Forall_forall; exact H).
  unfold wire_keys in Hg.
  repeat match type of Hg with
         | Forall _ (_ :: _) =>
             let E := fresh "E" in
             inversion Hg as [| ? ? E Hg']; subst; clear Hg;
             rename Hg' into Hg; try rewrite E
         end.
  unfold get_default. now rewrite Hc.
Qed.

End EmbImage_more.

Section Wire_more.
Context {emb_models : EmbModels} {vision_models : VisionModels} {pylib : PyLib}.

Lemma wire_keys_NoDup : NoDup wire_keys.
Proof.
  unfold wire_keys.
  repeat (constructor; [simpl; intuition discriminate |]). constructor.
Qed.

(** X6. The keys of the inner dictionary of [to_json] come in one fixed
    order, that of [wire_keys], each of them at most once: they are the
    keys of [wire_keys] that the omission contract keeps for the
    instance. *)
Theorem X6_to_json_key_order (x : EmbImage) :
  keys (to_json_result x) = filter (emitted x) wire_keys
  /\ NoDup (keys (to_json_result x)).
Proof.
  assert (E : keys (to_json_result x) = filter (emitted x) wire_keys).
  { destruct x as [d m c e v mcs co isr seps ks].
    unfold to_json_result, set_if_not_None, emitted, wire_field,
      optional_field, wire_keys, keys.
    cbn [Py.data Py.mime_type Py._chunks Py.emb_model Py.vision_model
         Py.max_chunk_size Py.chunk_overlap Py.is_separator_regex
         Py.separators Py.keep_separator].
    destruct (truthy c), (is_None e), (is_None v), (is_None mcs),
      (is_None co), (is_None isr), (is_None seps), (is_None ks);
      reflexivity. }
  split; [exact E |]. rewrite E. apply NoDup_filter, wire_keys_NoDup.
Qed.

Lemma deserialize_to_json (x : EmbImage) :
  deserialize (to_json x) = from_json (to_json_result x).
Proof. reflexivity. Qed.

Lemma to_json_result_set_chunks (x : EmbImage) :
  to_json_result
    (set_chunks x (if truthy (_chunks x) then _chunks x else PList []))
  = to_json_result x.
Proof.
  destruct x as [d m c e v mcs co isr seps ks].
  unfold to_json_result, set_chunks. simpl.
  now destruct (truthy c) eqn:Hc; simpl; rewrite ?Hc.
Qed.

(** X7. The wire object of an instance is stable: deserialising the
    serialisation of an instance returns an instance (it never raises),
    and that instance serialises to the same wire object, whatever the
    chunks of the first one are. *)
Theorem X7_wire_object_stable (x : EmbImage) :
  EmbImage_instance x ->
  exists y, deserialize (to_json x) = Return y
            /\ EmbImage_instance y
            /\ to_json y = to_json x.
Proof.
  intros Hx. rewrite deserialize_to_json.
  pose proof (from_json_to_json_result (instance_wire_safe Hx)) as E.
  eexists. split; [exact E |]. split.
  - exact (instance_from_json _ E).
  - unfold to_json. now rewrite to_json_result_set_chunks.
Qed.

(** X8. Serialising what [from_json] made of a wire object gives back,
    under each of the ten keys, the binding of the wire object, except
    that a [None] is dropped and that chunks which are false in a
    condition are dropped; no other key of the wire object comes back. *)
Theorem X8_from_json_then_to_json (w : dict) (x : EmbImage) :
  from_json w = Return x ->
  forall k,
    lookup (to_json_result x) k
    = if existsb (String.eqb k) wire_keys then kept k (lookup w k) else None.
Proof.
  rewrite from_json_branches.
  destruct (is_None (get w "data")) eqn:Hd; [discriminate |].
  destruct (is_None (get w "mime_type")) eqn:Hm; [discriminate |].
  destruct (first_failing_check _ _ _ _); [discriminate |].
  intros [= <-] k. rewrite lookup_to_json_result.
  unfold wire_field, optional_field, wire_keys, kept.
  cbn [Py.data Py.mime_type Py._chunks Py.emb_model Py.vision_model
       Py.max_chunk_size Py.chunk_overlap Py.is_separator_regex
       Py.separators Py.keep_separator existsb].
  unfold get, get_default in *.
  key_cases k;
    repeat match goal with
           | |- context [lookup w ?c] => destruct (lookup w c) as [? |]
           end;
    cbn in *;
    repeat match goal with
           | |- context [is_None ?v] => destruct (is_None v) eqn:?
           | |- context [truthy ?v] => destruct (truthy v) eqn:?
           end;
    try reflexivity; try discriminate.
Qed.

(** X20. The wire object tells instances apart: two instances whose chunks
    are lists and that serialise to the same wire object are the same
    instance. *)
Theorem X20_to_json_injective (x y : EmbImage) :
  EmbImage_instance x -> EmbImage_instance y ->
  (exists l, _chunks x = PList l) -> (exists l, _chunks y = PList l) ->
  to_json x = to_json y -> x = y.
Proof.
  intros Hx Hy [lx Hlx] [ly Hly] E.
  assert (R : forall z l, EmbImage_instance z -> _chunks z = PList l ->
                          from_json (to_json_result z) = Return z).
  { intros z l Hz Hl.
    rewrite (from_json_to_json_result (instance_wire_safe Hz)), Hl.
    destruct z; simpl in *; subst. now destruct l. }
  injection E as E.
  pose proof (R x lx Hx Hlx) as Rx. rewrite E, (R y ly Hy Hly) in Rx.
  now injection Rx.
Qed.

End Wire_more.

(* ================================================================== *)
(** * More on the document transformer *)

Section Transformer_more.
Context {emb_text : EmbTextAPI}.

Lemma lookup_transform_emb_text document k :
  lookup (transform_emb_text document) k
  = option_map transform_value (lookup document k).
Proof.
  induction document as [| [k0 v0] document IH]; [reflexivity |].
  rewrite transform_emb_text_cons. simpl.
  now destruct (String.eqb k k0).
Qed.

(** X10. The transformer keeps the keys of a document, in their order,
    and under each key it leaves the transformed value of that key: no
    sibling is dropped, added or moved. *)
Theorem X10_transform_keeps_keys (document : dict) :
  keys (transform_emb_text document) = keys document
  /\ List.length (transform_emb_text document) = List.length document
  /\ (forall k, lookup (transform_emb_text document) k
                = option_map transform_value (lookup document k)).
Proof.
  split; [apply transform_emb_text_keys |].
  split; [apply length_map | apply lookup_transform_emb_text].
Qed.

(** X11. A document with no [EmbText] instance anywhere in it is returned
    as it is. *)
Theorem X11_transform_without_EmbText (document : dict) :
  no_EmbText (PDict document) = true ->
  transform_emb_text document = document.
Proof.
  intros H. apply transform_value_no_EmbText in H.
  rewrite transform_value_dict in H. now injection H.
Qed.

Lemma nth_error_map_item l n :
  nth_error (map transform_item l) n
  = option_map transform_item (nth_error l n).
Proof. apply nth_error_map. Qed.

(** Below the value of a key and below an element of a list: an [EmbText]
    found at a position is replaced when the position is visited, and is
    left where it is otherwise. *)
Lemma at_path_transform attrs path :
  (forall v, at_path path v = Some (PEmbText attrs) ->
             at_path path (transform_value v)
             = Some (if visited false path then EmbText_to_json attrs
                     else PEmbText attrs))
  /\ (forall v, at_path path v = Some (PEmbText attrs) ->
                at_path path (transform_item v)
                = Some (if visited true path then EmbText_to_json attrs
                        else PEmbText attrs)).
Proof.
  induction path as [| [k | n] path [IHv IHi]].
  - split; intros v [= ->]; reflexivity.
  - assert (H : forall d, at_path (Key k :: path) (PDict d)
                          = Some (PEmbText attrs) ->
                          at_path (Key k :: path)
                            (PDict (transform_emb_text d))
                          = Some (if visited false path
                                  then EmbText_to_json attrs
                                  else PEmbText attrs)).
    { intros d. simpl. rewrite lookup_transform_emb_text.
      destruct (lookup d k) as [v' |]; [| discriminate]. apply IHv. }
    split; intros v Hv; destruct v; try discriminate; now apply H.
  - split; intros v Hv; destruct v as [ | | | | l | | | ];
      try discriminate.
    + rewrite transform_value_list. simpl in *.
      rewrite nth_error_map_item.
      destruct (nth_error l n) as [v' |]; [| discriminate]. now apply IHi.
    + exact Hv.
Qed.

(** X12. Which [EmbText] instances the transformer serialises: an
    [EmbText] at a position of a document (keys and list indices from the
    outside in) is replaced by its [to_json()] exactly when every list on
    the way is the value of a key and is left through an element that is a
    dictionary ([visited]); at every other position it stays the
    instance. *)
Theorem X12_transform_reach
    (document : dict) (k : string) (path : list step) (attrs : dict) :
  at_path (Key k :: path) (PDict document) = Some (PEmbText attrs) ->
  at_path (Key k :: path) (PDict (transform_emb_text document))
  = Some (if visited false path then EmbText_to_json attrs
          else PEmbText attrs).
Proof.
  intros H.
  destruct (at_path_transform attrs (Key k :: path)) as [Hv _].
  exact (Hv (PDict document) H).
Qed.



End Transformer_more.

(* ================================================================== *)
(** * More on the response classifier *)

Section Classifier_more.

(** What [handle_response] raises on a status from 400 to 599. *)
Lemma handle_response_raises (response : Response) :
  400 <= status_code response < 600 ->
  handle_response response
  = Raise
      match json response with
      | None => APIClientError (PInt (status_code response))
                               (PStr (text response))
      | Some (PDict d) =>
          let code := get_default d "code" (PInt 500) in
          let message := get_default d "message" (PStr msg_unknown_error) in
          match as_int code with
          | Some z => Failure (kind_of_code z) code message
          | None => TypeError
          end
      | Some _ => AttributeError
      end.
Proof.
  intros Hs. rewrite (handle_response_error_status _ Hs).
  unfold response_json. destruct (json response) as [v |]; [| reflexivity].
  destruct v as [ | | | | | d | | ]; try reflexivity.
  cbn [bind get_method]. unfold eq_int, ge_int, lt_int, kind_of_code.
  destruct (as_int (get_default d "code" (PInt 500))) as [z |];
    [| reflexivity].
  cbn [bind].
  destruct (z =? 401); [reflexivity |].
  destruct (400 <=? z); cbn [andb]; [| reflexivity].
  now destruct (z <? 500).
Qed.

(** X14. On a transport status from 400 to 599 [handle_response] never
    returns.  It raises the generic API error, with the transport status
    and the raw text, when the body is not JSON; an [AttributeError] when
    the body is JSON but [None], a boolean, an integer, a string or a list
    instead of an object; and for an object, the authentication,
    client-request or server error that the [code] selects when the [code]
    is an integer or a boolean, carrying the code and the message of the
    envelope, and a [TypeError] when the [code] is [None], a string, a list
    or an object. *)
Theorem X14_error_status_always_raises (response : Response) :
  400 <= status_code response < 600 ->
  (exists e, handle_response response = Raise e)
  /\ (json response = None ->
      handle_response response
      = Raise (APIClientError (PInt (status_code response))
                              (PStr (text response))))
  /\ (forall v, json response = Some v ->
      v = PNone \/ (exists b, v = PBool b) \/ (exists z, v = PInt z)
      \/ (exists s, v = PStr s) \/ (exists l, v = PList l) ->
      handle_response response = Raise AttributeError)
  /\ (forall d code message,
      json response = Some (PDict d) ->
      get_default d "code" (PInt 500) = code ->
      get_default d "message" (PStr "An unknown error occurred.") = message ->
      (forall z, as_int code = Some z ->
         handle_response response
         = Raise (if z =? 401 then AuthenticationError code message
                  else if (400 <=? z) && (z <? 500)
                       then ClientRequestError code message
                       else ServerError code message))
      /\ (code = PNone \/ (exists s, code = PStr s)
          \/ (exists l, code = PList l) \/ (exists d', code = PDict d') ->
          handle_response response = Raise TypeError)).
Proof.
  intros Hs. rewrite (handle_response_raises _ Hs).
  split; [eexists; reflexivity |].
  split; [now intros -> |].
  split.
  - intros v -> [-> | [[b ->] | [[z ->] | [[s ->] | [l ->]]]]]; reflexivity.
  - intros d code message -> <- <-. cbn zeta. split.
    + intros z ->. unfold kind_of_code. f_equal.
      destruct (z =? 401); [reflexivity |].
      now destruct ((400 <=? z) && (z <? 500)).
    + intros [E | [[s E] | [[l E] | [d' E]]]]; now rewrite E.
Qed.

(** X15. On every transport status outside 400 to 599 (2xx, but also 1xx,
    3xx and 600 and above) [handle_response] returns the decoded body when
    the body is JSON, whatever it holds, and lets the decode error out when
    it is not; it raises none of the API errors. *)
Theorem X15_other_status_returns_body (response : Response) :
  status_code response < 400 \/ 600 <= status_code response ->
  (forall v, json response = Some v -> handle_response response = Return v)
  /\ (json response = None -> handle_response response = Raise JSONDecodeError)
  /\ (forall e, handle_response response = Raise e ->
                is_APIClientError e = false).
Proof.
  intros Hs. rewrite (handle_response_other_status _ Hs).
  unfold response_json. destruct (json response) as [v |].
  - split; [now intros ? [= ->] |]. split; discriminate.
  - split; [discriminate |]. split; [reflexivity |]. now intros e [= <-].
Qed.

(** X16. On a status from 400 to 599 with an envelope, the failure depends
    on the [code] and the [message] of the envelope alone: not on the
    transport status, not on the raw text, not on the [status] field or any
    other key of the envelope. *)
Theorem X16_failure_from_code_and_message
    (response response' : Response) (d d' : dict) :
  400 <= status_code response < 600 ->
  400 <= status_code response' < 600 ->
  json response = Some (PDict d) ->
  json response' = Some (PDict d') ->
  get_default d "code" (PInt 500) = get_default d' "code" (PInt 500) ->
  get_default d "message" (PStr msg_unknown_error)
  = get_default d' "message" (PStr msg_unknown_error) ->
  handle_response response = handle_response response'.
Proof.
  intros Hs Hs' Hj Hj' Hc Hm.
  rewrite (handle_response_raises _ Hs), (handle_response_raises _ Hs').
  now rewrite Hj, Hj', Hc, Hm.
Qed.

End Classifier_more.

(* ================================================================== *)
(** * The operations of [Collection] *)

Lemma append_assoc (a b c : string) : (a ++ b) ++ c = a ++ (b ++ c).
Proof. induction a as [| x a IH]; simpl; [reflexivity | now rewrite IH]. Qed.

(** X19. The document URL joins the project and the database with an
    underscore and nothing else, so it does not tell them apart: a project
    [p_x] with database [d] and a project [p] with database [x_d] have the
    same URL; the API key is no part of it. *)
Theorem X19_url_joins_project_and_database
    (key key' p x d c : string) :
  get_collection_url {| api_key := key; project_id := p ++ "_" ++ x;
                        db_name := d; collection_name := c |}
  = get_collection_url {| api_key := key'; project_id := p;
                          db_name := x ++ "_" ++ d; collection_name := c |}.
Proof.
  unfold get_collection_url. cbn [project_id db_name collection_name].
  f_equal. now rewrite !append_assoc.
Qed.

(** X17. The body of [query] always starts with the key [query]; each of
    [emb_model], [top_k], [include_values] and [projection] is a key of it
    exactly when the argument is not [None], in that order; [find] instead
    sends its five keys always, a [None] argument as [None]. *)
Theorem X17_query_omits_None
    (q emb_model top_k include_values projection : pyval) :
  let data := query_data q emb_model top_k include_values projection in
  keys data
  = ("query"
     :: (if is_None emb_model then [] else ["emb_model"])
     ++ (if is_None top_k then [] else ["top_k"])
     ++ (if is_None include_values then [] else ["include_values"])
     ++ (if is_None projection then [] else ["projection"]))%list
  /\ lookup data "query" = Some q
  /\ lookup data "emb_model" = optional_field emb_model
  /\ lookup data "top_k" = optional_field top_k
  /\ lookup data "include_values" = optional_field include_values
  /\ lookup data "projection" = optional_field projection
  /\ (forall filter sort limit skip,
        keys (find_data filter projection sort limit skip)
        = ["filter"; "projection"; "sort"; "limit"; "skip"]
        /\ lookup (find_data filter projection sort limit skip) "projection"
           = Some projection).
Proof.
  unfold query_data, set_if_not_None, optional_field, keys.
  destruct (is_None emb_model), (is_None top_k), (is_None include_values),
    (is_None projection); cbn; repeat split.
Qed.

Section Operations.
Context {emb_text : EmbTextAPI} {requests : Requests}.

(** X18. Every operation hands what the transport gives to
    [handle_response] and adds nothing of its own: when the transport
    answers every request with the response [r], [insert], [update],
    [delete], [find] and [query] all return or raise what
    [handle_response r] does, whatever their arguments; when the transport
    raises [e] on every request, they all raise [e], uncaught. *)
Theorem X18_operations_classify_the_response (sent : result Response) :
  (forall url headers body, requests_post url headers body = sent) ->
  (forall url headers body, requests_put url headers body = sent) ->
  (forall url headers body, requests_delete url headers body = sent) ->
  let outcome :=
    match sent with
    | Return r => handle_response r
    | Raise e => Raise e
    end in
  forall self,
    (forall documents, insert self documents = outcome)
    /\ (forall filter upd upsert, update self filter upd upsert = outcome)
    /\ (forall filter, delete self filter = outcome)
    /\ (forall filter projection sort limit skip,
          find self filter projection sort limit skip = outcome)
    /\ (forall q emb_model top_k include_values projection,
          query self q emb_model top_k include_values projection = outcome).
Proof.
  intros Hpost Hput Hdel outcome self.
  unfold insert, update, delete, find, query.
  repeat split; intros; rewrite ?Hpost, ?Hput, ?Hdel; subst outcome;
    now destruct sent.
Qed.

End Operations.

(* ================================================================== *)
(** * The further statements at concrete inputs *)

Section Concrete_more.
Import Sample Demo.

(** [image_null_chunks] is what [from_json] makes of [wire_null_chunks]. *)
Lemma image_null_chunks_instance : EmbImage_instance image_null_chunks.
Proof.
  apply (@instance_from_json _ _ _ wire_null_chunks). reflexivity.
Defined.

(** C4 as stated fails: the wire object whose [chunks] is [None] is
    reconstructed as an instance with chunks [None], and deserialising the
    serialisation of that instance returns another one, whose chunks are
    the empty list. *)
Lemma C4_counterexample :
  from_json wire_null_chunks = Return image_null_chunks
  /\ deserialize (to_json image_null_chunks) = Return image_plain
  /\ _chunks image_null_chunks = PNone
  /\ _chunks image_plain = PList []
  /\ deserialize (to_json image_null_chunks) <> Return image_null_chunks.
Proof.
  split; [reflexivity |]. split; [reflexivity |].
  split; [reflexivity |]. split; [reflexivity | discriminate].
Qed.

(** X1 at [image_cat]. *)
Lemma X1_instance_validated_witness :
  EmbImage_instance image_cat
  /\ (exists m, mime_type image_cat = PStr m /\ In m SUPPORTED_MIME_TYPES)
  /\ (emb_model image_cat = PNone
      \/ exists m, emb_model image_cat = PStr m
                   /\ In m SUPPORTED_EMB_MODELS).
Proof.
  split; [exact image_cat_instance |].
  destruct (X1_instance_validated image_cat_instance) as (_ & Hm & He & _).
  split; [exact Hm | exact He].
Defined.

(** X2 at [EmbImage("aGVsbG8=", "image/png")]. *)
Lemma X2_constructor_leaves_chunks_empty_witness :
  exists x,
    EmbImage_call hello_b64 png None None None None None None None
    = Return x
    /\ chunks x = PList []
    /\ lookup (to_json_result x) "chunks" = None.
Proof.
  assert (E : EmbImage_call hello_b64 png None None None None None None None
              = Return image_default) by reflexivity.
  exists image_default. split; [exact E |].
  destruct (X2_constructor_leaves_chunks_empty _ _ _ _ _ _ _ _ _ E)
    as (Hc & Hl & _).
  split; [exact Hc | exact Hl].
Defined.

(** X3 at a wire object without [data], at one without [mime_type] whose
    [data] is not base64, and at one with that [data] and a mime type. *)
Lemma X3_from_json_required_fields_witness :
  from_json wire_no_data = Raise (ValueError msg_missing_data)
  /\ from_json wire_no_mime
     = Raise (ValueError
         "JSON data must include 'mime_type' field under '@embImage'. Supported types are: image/jpeg, image/jpg, image/png, image/gif, image/webp")
  /\ from_json wire_bad_data = Raise (ValueError msg_invalid_data).
Proof.
  split; [| split].
  - destruct (X3_from_json_required_fields wire_no_data) as (H & _).
    apply H. left. reflexivity.
  - destruct (X3_from_json_required_fields wire_no_mime) as (_ & H & _).
    apply H; [discriminate | left; reflexivity].
  - destruct (X3_from_json_required_fields wire_bad_data) as (_ & _ & H).
    apply H; [discriminate | discriminate | reflexivity].
Defined.

(** X5 at a wire object with an unknown key and a [None], against the
    same object without them. *)
Lemma X5_from_json_reads_wire_keys_only_witness :
  from_json wire_extra = from_json wire_plain.
Proof.
  apply X5_from_json_reads_wire_keys_only; [| reflexivity].
  intros k Hk. unfold wire_keys in Hk. simpl in Hk.
  repeat (destruct Hk as [<- | Hk]; [reflexivity |]). destruct Hk.
Defined.

(** X7 at an instance whose chunks are [None]. *)
Lemma X7_wire_object_stable_witness :
  EmbImage_instance image_null_chunks
  /\ exists y, deserialize (to_json image_null_chunks) = Return y
               /\ EmbImage_instance y
               /\ to_json y = to_json image_null_chunks.
Proof.
  split; [exact image_null_chunks_instance |].
  exact (X7_wire_object_stable image_null_chunks_instance).
Defined.

(** X8 at [wire_extra]: the [None] under [emb_model] and the unknown key
    [id] do not come back. *)
Lemma X8_from_json_then_to_json_witness :
  from_json wire_extra = Return image_plain
  /\ lookup (to_json_result image_plain) "data" = Some hello_b64
  /\ lookup (to_json_result image_plain) "emb_model" = None
  /\ lookup (to_json_result image_plain) "id" = None.
Proof.
  assert (E : from_json wire_extra = Return image_plain) by reflexivity.
  split; [exact E |].
  pose proof (X8_from_json_then_to_json _ E) as H.
  split; [exact (H "data") |]. split; [exact (H "emb_model") |].
  exact (H "id").
Defined.

(** X9 at a string of spaces. *)
Lemma X9_is_valid_data_characterised_witness :
  all_space "   " = true /\ is_valid_data (PStr "   ") = false.
Proof.
  split; [reflexivity |].
  destruct X9_is_valid_data_characterised as [_ H].
  apply H. reflexivity.
Defined.

(** X11 at a document of strings, numbers, a list and a dictionary. *)
Lemma X11_transform_without_EmbText_witness :
  no_EmbText (PDict plain_document) = true
  /\ transform_emb_text plain_document = plain_document.
Proof.
  split; [reflexivity |].
  apply X11_transform_without_EmbText. reflexivity.
Defined.

(** X12 at the three [EmbText] instances of [nested_document]: under a
    key, inside a dictionary inside a list, and as an element of a list. *)
Lemma X12_transform_reach_witness :
  at_path [Key "body"] (PDict (transform_emb_text nested_document))
  = Some (EmbText_to_json note)
  /\ at_path [Key "parts"; Index 0; Key "p"]
       (PDict (transform_emb_text nested_document))
     = Some (EmbText_to_json note)
  /\ at_path [Key "parts"; Index 1]
       (PDict (transform_emb_text nested_document))
     = Some (PEmbText note).
Proof.
  split; [| split].
  - exact (@X12_transform_reach _ nested_document "body" [] note eq_refl).
  - exact (@X12_transform_reach _ nested_document "parts"
             [Index 0; Key "p"] note eq_refl).
  - exact (@X12_transform_reach _ nested_document "parts" [Index 1] note
             eq_refl).
Defined.


(** X14 at status 400 with a body that is a JSON array, and with an
    envelope whose code is a string. *)
Lemma X14_error_status_always_raises_witness :
  400 <= status_code response_400_array < 600
  /\ handle_response response_400_array = Raise AttributeError
  /\ handle_response response_400_code_str = Raise TypeError.
Proof.
  assert (Hs : 400 <= status_code response_400_array < 600) by (cbn; lia).
  assert (Hs' : 400 <= status_code response_400_code_str < 600)
    by (cbn; lia).
  split; [exact Hs |]. split.
  - destruct (X14_error_status_always_raises response_400_array Hs)
      as (_ & _ & H & _).
    apply (H (PList [PInt 1; PInt 2]) eq_refl).
    right; right; right; right. eexists; reflexivity.
  - destruct (X14_error_status_always_raises response_400_code_str Hs')
      as (_ & _ & _ & H).
    destruct (H [("code", PStr "401")] (PStr "401")
                (PStr "An unknown error occurred.") eq_refl eq_refl eq_refl)
      as [_ H'].
    apply H'. right; left. eexists; reflexivity.
Defined.

(** X15 at status 300 with an error envelope as body. *)
Lemma X15_other_status_returns_body_witness :
  handle_response response_300_envelope = Return envelope_401.
Proof.
  assert (Hs : status_code response_300_envelope < 400
               \/ 600 <= status_code response_300_envelope)
    by (left; cbn; lia).
  destruct (X15_other_status_returns_body response_300_envelope Hs)
    as (H & _).
  apply H. reflexivity.
Defined.

(** X16 at status 404 and status 500 with the same code and message. *)
Lemma X16_failure_from_code_and_message_witness :
  handle_response response_404 = handle_response response_500_code_404.
Proof.
  apply (@X16_failure_from_code_and_message response_404
           response_500_code_404
           [("code", PInt 404); ("message", PStr "not found")]
           [("status", PStr "failed"); ("code", PInt 404);
            ("message", PStr "not found")]);
    try reflexivity; cbn; lia.
Defined.

(** X18 with the transport that always answers 404. *)
Lemma X18_operations_classify_the_response_witness :
  @insert Sample.emb_text always_404 books [nested_document]
  = Raise (ClientRequestError (PInt 404) (PStr "not found"))
  /\ @query always_404 books (PStr "cats") PNone (PInt 3) PNone PNone
     = Raise (ClientRequestError (PInt 404) (PStr "not found")).
Proof.
  destruct (@X18_operations_classify_the_response Sample.emb_text
              always_404 (Return response_404)
              (fun _ _ _ => eq_refl) (fun _ _ _ => eq_refl)
              (fun _ _ _ => eq_refl) books) as (Hi & _ & _ & _ & Hq).
  split; [exact (Hi [nested_document]) |].
  exact (Hq (PStr "cats") PNone (PInt 3) PNone PNone).
Defined.

(** X20 at [image_cat], taken twice. *)
Lemma X20_to_json_injective_witness :
  EmbImage_instance image_cat
  /\ (exists l, _chunks image_cat = PList l)
  /\ to_json image_cat = to_json image_cat
  /\ image_cat = image_cat.
Proof.
  split; [exact image_cat_instance |].
  split; [eexists; reflexivity |]. split; [reflexivity |].
  apply X20_to_json_injective;
    try exact image_cat_instance; try (eexists; reflexivity); reflexivity.
Defined.

End Concrete_more.
